(** * HEART BALLOON POP: a shallow embedding of the game core

    The development follows [src/game.py] (entities, the game session, the
    shoot and update operations, the time-ticket formula),
    [src/heart_detector.py] (the gun-gesture classifier), [main.py] (the
    per-iteration input handling with its rising-edge trigger and remembered
    aiming position) and [src/camera_manager.py] (the search for a
    registered camera, with the exceptions that leave it).

    Numbers are modelled as the interpreter has them: Python [float] is IEEE
    binary64, here Rocq's primitive [float]; Python [int] is [Z].  Where the
    program mixes both (an [int] radius compared with a [float] distance) the
    integer is converted with [of_int], which is exact for every integer the
    program produces.  The clock ([time.time()]) and the random generator are
    inputs of the operations that read them.  The routines of the numeric
    libraries (the power operator [**] of floats, [math.sin], [np.arctan2],
    [np.degrees]) are parameters of the model. *)

From Stdlib Require Import ZArith List Bool Lia Floats.
From Stdlib Require String Ascii DecimalString.
Import ListNotations.
Import String.StringSyntax.
Delimit Scope string_scope with string.

Set Warnings "-inexact-float".
Open Scope Z_scope.

(** ** Python numbers *)

Module Py.

(** [float(n)] for an integer [n]: the nearest binary64 value, ties to
    even; exact below 2^53 in magnitude. Beyond the largest finite value,
    where Python raises OverflowError, the result is an infinity. *)
Definition of_int (n : Z) : float :=
  SF2Prim (binary_normalize prec emax n 0 false).

(** [int(f)]: truncation toward zero; [None] stands for the exception
    raised on an infinity or a NaN. *)
Definition to_int (f : float) : option Z :=
  match Prim2SF f with
  | S754_zero _ => Some 0%Z
  | S754_finite s m e =>
      let mag := if (0 <=? e)%Z then (Zpos m * 2 ^ e)%Z
                 else (Zpos m / 2 ^ (- e))%Z in
      Some (if s then (- mag)%Z else mag)
  | S754_infinity _ => None
  | S754_nan => None
  end.

(** Truth value of an optional tuple: [None] is false, a pair is true. *)
Definition truthy {A : Type} (o : option A) : bool :=
  match o with Some _ => true | None => false end.

End Py.

(** ** Constants of [game.py] *)

Definition VIRTUAL_WIDTH : Z := 480.
Definition VIRTUAL_HEIGHT : Z := 270.
Definition GAME_DURATION : Z := 30.
Definition BALLOON_SPAWN_INTERVAL : float := 0.8%float.
Definition BALLOON_SIZE : Z := 12.
Definition SHOOT_COOLDOWN : float := 0.3%float.
Definition HIT_RADIUS : Z := 15.

Definition Color : Type := (Z * Z * Z)%type.

(** The type names balloons are constructed with, the keys of
    [BALLOON_TYPES]; [Balloon.__init__] handles [normal] in its final
    [else]. *)
Inductive BalloonType : Type :=
| normal | bonus | penalty | fast | zigzag | ultra_rare.

Definition BalloonType_eqb (a b : BalloonType) : bool :=
  match a, b with
  | normal, normal | bonus, bonus | penalty, penalty
  | fast, fast | zigzag, zigzag | ultra_rare, ultra_rare => true
  | _, _ => false
  end.

(** The dictionary [BALLOON_TYPES], in its insertion order. *)
Definition BALLOON_TYPES : list (BalloonType * float) :=
  [ (normal, 0.35%float); (bonus, 0.20%float); (penalty, 0.20%float);
    (fast, 0.10%float); (zigzag, 0.10%float); (ultra_rare, 0.05%float) ].

(** ** Balloon *)

Record Balloon : Type := mkBalloon {
  b_x : float;
  b_y : float;
  b_initial_x : float;
  b_color : Color;
  b_speed : float;
  b_radius : Z;
  b_alive : bool;
  b_type : BalloonType;
  b_age : float;
  b_score_value : Z
}.

(** [Balloon.__init__] *)
Definition Balloon_init (x y : float) (color : Color) (speed : float)
           (balloon_type : BalloonType) : Balloon :=
  match balloon_type with
  | bonus =>
      mkBalloon x y x (255, 215, 0)%Z speed (BALLOON_SIZE + 2) true bonus 0 20
  | penalty =>
      mkBalloon x y x (138, 43, 226)%Z speed BALLOON_SIZE true penalty 0 (-30)
  | fast =>
      mkBalloon x y x color (speed * 1.8)%float BALLOON_SIZE true fast 0 15
  | zigzag =>
      mkBalloon x y x color speed BALLOON_SIZE true zigzag 0 15
  | ultra_rare =>
      mkBalloon x y x (255, 0, 255)%Z (speed * 3.0)%float (BALLOON_SIZE + 3)
                true ultra_rare 0 100
  | normal =>
      mkBalloon x y x color speed BALLOON_SIZE true normal 0 10
  end.

Definition Balloon_kill (b : Balloon) : Balloon :=
  mkBalloon (b_x b) (b_y b) (b_initial_x b) (b_color b) (b_speed b)
            (b_radius b) false (b_type b) (b_age b) (b_score_value b).

(** ** ShootEffect *)

Record ShootEffect : Type := mkShootEffect {
  e_x : float;
  e_y : float;
  e_radius : float;
  e_max_radius : float;
  e_alive : bool;
  e_lifetime : float;
  e_age : float
}.

Definition ShootEffect_init (x y : float) : ShootEffect :=
  mkShootEffect x y 3 20 true 0.3 0.

(** [ShootEffect.update] *)
Definition ShootEffect_update (dt : float) (e : ShootEffect) : ShootEffect :=
  let age := (e_age e + dt)%float in
  if (e_lifetime e <=? age)%float then
    mkShootEffect (e_x e) (e_y e) (e_radius e) (e_max_radius e) false
                  (e_lifetime e) age
  else
    let progress := (age / e_lifetime e)%float in
    mkShootEffect (e_x e) (e_y e)
                  (3 + (e_max_radius e - 3) * progress)%float
                  (e_max_radius e) (e_alive e) (e_lifetime e) age.

(** ** The game session *)

Inductive GameState : Type := READY | RUN | RESULT.

Record Game : Type := mkGame {
  state : GameState;
  score : Z;
  balloons_popped : Z;
  game_start_time : float;
  last_shoot_time : float;
  last_balloon_spawn : float;
  balloons : list Balloon;
  shoot_effects : list ShootEffect;
  running : bool;
  is_aiming : bool;
  aiming_position : option (Z * Z)
}.

(** [Game.__init__], the fields the game logic reads. *)
Definition Game_init : Game :=
  mkGame READY 0 0 0 0 0 [] [] true false None.

Definition with_state (s : GameState) (g : Game) : Game :=
  mkGame s (score g) (balloons_popped g) (game_start_time g)
         (last_shoot_time g) (last_balloon_spawn g) (balloons g)
         (shoot_effects g) (running g) (is_aiming g) (aiming_position g).

Definition with_running (r : bool) (g : Game) : Game :=
  mkGame (state g) (score g) (balloons_popped g) (game_start_time g)
         (last_shoot_time g) (last_balloon_spawn g) (balloons g)
         (shoot_effects g) r (is_aiming g) (aiming_position g).

(** [Game.set_aiming] *)
Definition set_aiming (aiming : bool) (position : option (Z * Z)) (g : Game)
  : Game :=
  mkGame (state g) (score g) (balloons_popped g) (game_start_time g)
         (last_shoot_time g) (last_balloon_spawn g) (balloons g)
         (shoot_effects g) (running g) aiming position.

(** [Game.start_game]; the clock is read twice. *)
Definition start_game (t_start t_spawn : float) (g : Game) : Game :=
  mkGame RUN 0 0 t_start (last_shoot_time g) t_spawn [] []
         (running g) (is_aiming g) (aiming_position g).

(** *** Spawning *)

(** What one call of [spawn_balloon] draws from [random]. *)
Record SpawnDraw : Type := mkSpawnDraw {
  draw_x : Z;            (* random.randint(BALLOON_SIZE, VIRTUAL_WIDTH - BALLOON_SIZE) *)
  draw_color : Color;    (* random.choice(self.balloon_colors) *)
  draw_speed : float;    (* random.uniform(BALLOON_SPEED_MIN, BALLOON_SPEED_MAX) *)
  draw_val : float       (* random.random() *)
}.

(** The loop over [BALLOON_TYPES.items()]: the running sum, the comparison
    and the [break]. *)
Fixpoint choose_type (items : list (BalloonType * float)) (rand_val : float)
         (cumulative_prob : float) (balloon_type : BalloonType) : BalloonType :=
  match items with
  | [] => balloon_type
  | (btype, prob) :: rest =>
      let cumulative_prob := (cumulative_prob + prob)%float in
      if (rand_val <=? cumulative_prob)%float then btype
      else choose_type rest rand_val cumulative_prob balloon_type
  end.

Definition draw_balloon_type (rand_val : float) : BalloonType :=
  choose_type BALLOON_TYPES rand_val 0 normal.

Definition with_balloons (bs : list Balloon) (g : Game) : Game :=
  mkGame (state g) (score g) (balloons_popped g) (game_start_time g)
         (last_shoot_time g) (last_balloon_spawn g) bs
         (shoot_effects g) (running g) (is_aiming g) (aiming_position g).

(** [Game.spawn_balloon] *)
Definition spawn_balloon (d : SpawnDraw) (g : Game) : Game :=
  let x := Py.of_int (draw_x d) in
  let y := Py.of_int (VIRTUAL_HEIGHT + BALLOON_SIZE) in
  let balloon :=
    Balloon_init x y (draw_color d) (draw_speed d)
                 (draw_balloon_type (draw_val d)) in
  with_balloons (balloons g ++ [balloon]) g.

(** [Game.calculate_time_tickets] *)
Definition calculate_time_tickets (g : Game) : Z :=
  if (balloons_popped g >=? 30)%Z then 90
  else if (balloons_popped g >=? 15)%Z then (balloons_popped g - 15) * 6
  else (balloons_popped g - 15) * 6.

(** ** Operations that call the numeric libraries *)

(** The library routines the program calls: the power operator of floats
    (the C library's [pow]) and three functions primitive floats lack. *)
Record MathLib : Type := mkMathLib {
  pow : float -> float -> float;       (* x ** y *)
  sin : float -> float;                (* math.sin *)
  arctan2 : float -> float -> float;   (* np.arctan2 *)
  degrees : float -> float             (* np.degrees *)
}.

Notation "'do' x <- a ; b" :=
  (match a with Some x => b | None => None end)
  (at level 10, x pattern, a at level 100, b at level 200).

Section WithMathLib.

Variable M : MathLib.

(** [Balloon.update] *)
Definition Balloon_update (dt : float) (b : Balloon) : Balloon :=
  let age := (b_age b + dt)%float in
  let y := (b_y b - b_speed b * dt)%float in
  let x := if BalloonType_eqb (b_type b) zigzag
           then (b_initial_x b + sin M (age * 3) * 30)%float
           else b_x b in
  let alive := if (y <? Py.of_int (- b_radius b * 2))%float then false
               else b_alive b in
  mkBalloon x y (b_initial_x b) (b_color b) (b_speed b) (b_radius b)
            alive (b_type b) age (b_score_value b).

(** [Balloon.collides_with] *)
Definition distance_to (b : Balloon) (x y : float) : float :=
  pow M (pow M (b_x b - x)%float 2 + pow M (b_y b - y)%float 2)%float 0.5.

Definition collides_with (b : Balloon) (x y : float) (radius : Z) : bool :=
  (distance_to b x y <? Py.of_int (b_radius b + radius))%float.

(** *** Shooting *)

(** The hit loop of [Game.shoot]: the first live colliding balloon is marked
    dead, the counters are updated and the loop is left. *)
Fixpoint hit_scan (bs : list Balloon) (vx vy : float) (sc popped : Z)
  : list Balloon * Z * Z :=
  match bs with
  | [] => ([], sc, popped)
  | b :: rest =>
      if b_alive b && collides_with b vx vy HIT_RADIUS then
        (Balloon_kill b :: rest,
         (sc + b_score_value b)%Z,
         if (b_score_value b >? 0)%Z then (popped + 1)%Z else popped)
      else
        let '(rest', sc', popped') := hit_scan rest vx vy sc popped in
        (b :: rest', sc', popped')
  end.

Definition virtual_x (x : float) : float :=
  (x / 1000.0 * Py.of_int VIRTUAL_WIDTH)%float.
Definition virtual_y (y : float) : float :=
  (y / 1000.0 * Py.of_int VIRTUAL_HEIGHT)%float.

(** [Game.shoot]; [current_time] is the clock read at entry. *)
Definition shoot (current_time : float) (x y : float) (g : Game) : Game :=
  if (current_time - last_shoot_time g <? SHOOT_COOLDOWN)%float then g
  else
    let vx := virtual_x x in
    let vy := virtual_y y in
    let effect := ShootEffect_init vx vy in
    let '(bs, sc, popped) :=
      hit_scan (balloons g) vx vy (score g) (balloons_popped g) in
    mkGame (state g) sc popped (game_start_time g) current_time
           (last_balloon_spawn g) bs (shoot_effects g ++ [effect])
           (running g) (is_aiming g) (aiming_position g).

(** [Game.update]; [current_time] is the clock read in the RUN branch and
    [d] what [spawn_balloon] draws if it is called. *)
Definition update (current_time : float) (d : SpawnDraw) (dt : float)
           (g : Game) : Game :=
  match state g with
  | READY => g
  | RESULT => g
  | RUN =>
      let elapsed_time := (current_time - game_start_time g)%float in
      if (Py.of_int GAME_DURATION <=? elapsed_time)%float then
        with_state RESULT g
      else
        let g1 :=
          if (BALLOON_SPAWN_INTERVAL <=? current_time - last_balloon_spawn g)%float
          then
            let g' := spawn_balloon d g in
            mkGame (state g') (score g') (balloons_popped g')
                   (game_start_time g') (last_shoot_time g') current_time
                   (balloons g') (shoot_effects g') (running g')
                   (is_aiming g') (aiming_position g')
          else g in
        let bs := map (Balloon_update dt) (balloons g1) in
        let es := map (ShootEffect_update dt) (shoot_effects g1) in
        mkGame (state g1) (score g1) (balloons_popped g1)
               (game_start_time g1) (last_shoot_time g1)
               (last_balloon_spawn g1)
               (filter b_alive bs) (filter e_alive es)
               (running g1) (is_aiming g1) (aiming_position g1)
  end.

(** *** The gesture classifier of [heart_detector.py] *)

Record Landmark : Type := mkLandmark { lm_x : float; lm_y : float }.

(** [landmarks.landmark]: the repeated field, indexed from 0; an index out of
    range raises, here [None]. *)
Definition Hand : Type := list Landmark.

Definition INDEX_TIP : nat := 8.
Definition INDEX_PIP : nat := 6.
Definition MIDDLE_TIP : nat := 12.
Definition MIDDLE_PIP : nat := 10.
Definition RING_TIP : nat := 16.
Definition RING_PIP : nat := 14.
Definition PINKY_TIP : nat := 20.
Definition PINKY_PIP : nat := 18.
Definition WRIST : nat := 0.

(** [HeartDetector._is_finger_extended] *)
Definition _is_finger_extended (landmarks : Hand)
           (finger_tip_idx finger_pip_idx : nat) : option bool :=
  do tip <- nth_error landmarks finger_tip_idx;
  do pip <- nth_error landmarks finger_pip_idx;
  Some (lm_y tip <? lm_y pip - 0.015)%float.

(** The angle of the wrist-to-index-tip vector, after the normalisation
    step of the source. *)
Definition angle_degrees (wrist index_tip : Landmark) : float :=
  let dx := (lm_x index_tip - lm_x wrist)%float in
  let dy := (lm_y index_tip - lm_y wrist)%float in
  let a := degrees M (arctan2 M dy dx) in
  if (a <? 0)%float then (a + 360)%float else a.

(** [HeartDetector._detect_gun_gesture]: the triple
    (shoot_position, is_aiming, aiming_position). *)
Definition _detect_gun_gesture (landmarks : Hand)
  : option (option (Z * Z) * bool * option (Z * Z)) :=
  do index_tip <- nth_error landmarks INDEX_TIP;
  do wrist <- nth_error landmarks WRIST;
  do px <- Py.to_int (lm_x index_tip * 1000)%float;
  do py <- Py.to_int (lm_y index_tip * 1000)%float;
  let position := (px, py) in
  do index_extended <- _is_finger_extended landmarks INDEX_TIP INDEX_PIP;
  do middle_ext <- _is_finger_extended landmarks MIDDLE_TIP MIDDLE_PIP;
  do ring_ext <- _is_finger_extended landmarks RING_TIP RING_PIP;
  do pinky_ext <- _is_finger_extended landmarks PINKY_TIP PINKY_PIP;
  let is_strict_gun :=
    index_extended && negb middle_ext && negb ring_ext && negb pinky_ext in
  let a := angle_degrees wrist index_tip in
  if (225 <=? a)%float && (a <=? 315)%float && is_strict_gun
  then Some (Some position, false, None)
  else Some (None, true, Some position).

(** What [HeartDetector.detect] returns, without the debug frame. The
    detector's own fields repeat this tuple for the debug overlay and are
    left out. *)
Record Detection : Type := mkDetection {
  heart_detected : bool;
  heart_position : option (Z * Z);
  det_is_aiming : bool;
  det_aiming_position : option (Z * Z)
}.

Definition no_gesture : Detection := mkDetection false None false None.

(** [HeartDetector.detect] on the landmark sets of one frame
    ([results.multi_hand_landmarks]; an absent list and an empty one are
    both false). *)
Fixpoint detect (multi_hand_landmarks : list Hand) : option Detection :=
  match multi_hand_landmarks with
  | [] => Some no_gesture
  | hand_landmarks :: rest =>
      do r <- _detect_gun_gesture hand_landmarks;
      let '(shoot_pos, aiming, aim_pos) := r in
      if Py.truthy shoot_pos then
        Some (mkDetection true shoot_pos false None)
      else if aiming then
        Some (mkDetection false None true aim_pos)
      else detect rest
  end.

(** *** The main loop of [main.py] *)

(** The loop's own variables. *)
Record Loop : Type := mkLoop {
  last_time : float;
  last_heart_state : bool;
  last_aiming_position : option (Z * Z)
}.

Definition state_in_ready_run (g : Game) : bool :=
  match state g with READY | RUN => true | RESULT => false end.

(** Lines 80-84: the aiming state is passed on and remembered, in READY and
    RUN only. *)
Definition record_aim (d : Detection) (st : Loop * Game) : Loop * Game :=
  let '(lp, g) := st in
  if state_in_ready_run g then
    let g := set_aiming (det_is_aiming d) (det_aiming_position d) g in
    if det_is_aiming d && Py.truthy (det_aiming_position d) then
      (mkLoop (last_time lp) (last_heart_state lp) (det_aiming_position d), g)
    else (lp, g)
  else (lp, g).

(** The condition of line 87. *)
Definition triggered (d : Detection) (lp : Loop) : bool :=
  heart_detected d && negb (last_heart_state lp).

(** Lines 87-92: the arguments of the [game.shoot] call this tick makes, if
    it makes one. *)
Definition shoot_request (d : Detection) (lp : Loop) (g : Game)
  : option (Z * Z) :=
  if triggered d lp then
    match state g with
    | RUN => last_aiming_position lp
    | _ => None
    end
  else None.

(** Lines 74-94: what one iteration does with a frame's detection;
    [t_shoot] is the clock [game.shoot] reads when it is called. The camera
    preview set on line 77 is only drawn. *)
Definition gesture_step (d : Detection) (t_shoot : float)
           (st : Loop * Game) : Loop * Game :=
  let '(lp, g) := record_aim d st in
  let g :=
    match shoot_request d lp g with
    | Some (x, y) => shoot t_shoot (Py.of_int x) (Py.of_int y) g
    | None => g
    end in
  (mkLoop (last_time lp) (heart_detected d) (last_aiming_position lp), g).

Inductive Key : Type := K_ESCAPE | K_q | K_SPACE | K_m | K_r | K_s | K_other.
Inductive Event : Type := QUIT | KEYDOWN (key : Key) | OTHER_EVENT.
Inductive Command : Type := cmd_start | cmd_manual_shoot | cmd_save_screenshot.

(** [Game.handle_event] *)
Definition handle_event (event : Event) (g : Game) : option Command * Game :=
  match event with
  | QUIT => (None, with_running false g)
  | KEYDOWN K_ESCAPE | KEYDOWN K_q => (None, with_running false g)
  | KEYDOWN key =>
      match state g, key with
      | READY, K_SPACE => (Some cmd_start, g)
      | RUN, K_m => (Some cmd_manual_shoot, g)
      | RESULT, K_r => (None, with_state READY g)
      | RESULT, K_s => (Some cmd_save_screenshot, g)
      | _, _ => (None, g)
      end
  | OTHER_EVENT => (None, g)
  end.

(** Lines 97-110: one event with the clock readings its command takes. *)
Definition event_step (g : Game) (ev : Event * float * float) : Game :=
  let '(event, t1, t2) := ev in
  let '(command, g) := handle_event event g in
  match command with
  | Some cmd_start => start_game t1 t2 g
  | Some cmd_manual_shoot => shoot t1 500 500 g
  | Some cmd_save_screenshot => g
  | None => g
  end.

(** The inputs of one iteration of the loop. *)
Record Tick : Type := mkTick {
  tick_time : float;                         (* time.time() at the head *)
  tick_frame : option (list Hand);           (* read_frame() and the landmarks found *)
  tick_shoot_time : float;                   (* clock of a gesture shot *)
  tick_events : list (Event * float * float);
  tick_update_time : float;                  (* clock of update *)
  tick_draw : SpawnDraw
}.

(** Lines 58-113: one iteration. [None]: the classifier raised. *)
Definition main_iteration (tk : Tick) (st : Loop * Game)
  : option (Loop * Game) :=
  let '(lp, g) := st in
  let dt := (tick_time tk - last_time lp)%float in
  let lp := mkLoop (tick_time tk) (last_heart_state lp)
                   (last_aiming_position lp) in
  let dt := if (0.1 <? dt)%float then 0.1%float else dt in
  do st1 <- match tick_frame tk with
            | Some hands =>
                do d <- detect hands;
                Some (gesture_step d (tick_shoot_time tk) (lp, g))
            | None => Some (lp, g)
            end;
  let '(lp, g) := st1 in
  let g := fold_left event_step (tick_events tk) g in
  Some (lp, update (tick_update_time tk) (tick_draw tk) dt g).

(** [while game.running]: the iterations over a finite run of inputs. *)
Fixpoint main_loop (ticks : list Tick) (st : Loop * Game)
  : option (Loop * Game) :=
  match ticks with
  | [] => Some st
  | tk :: rest =>
      if running (snd st) then
        do st' <- main_iteration tk st;
        main_loop rest st'
      else Some st
  end.

End WithMathLib.

(** ** The detector's own state and the debug overlay *)

(** The fields [HeartDetector.__init__] sets besides the MediaPipe handle. *)
Record Detector : Type := mkDetector {
  self_shoot_detected : bool;
  self_last_shoot_position : option (Z * Z);
  self_aiming : bool;
  self_aiming_position : option (Z * Z)
}.

Definition Detector_init : Detector := mkDetector false None false None.

(** What [get_debug_frame] puts on the copy of the frame: the skeleton of
    every hand found and one status text. *)
Record DebugFrame : Type := mkDebugFrame {
  drawn_hands : list Hand;
  status_text : String.string
}.

(** [HeartDetector.get_debug_frame] with [results] given (lines 177-210). *)
Definition get_debug_frame (self : Detector) (multi_hand_landmarks : list Hand)
  : DebugFrame :=
  let status :=
    if self_shoot_detected self then "SHOOTING!"%string
    else if self_aiming self then "AIMING"%string
    else match multi_hand_landmarks with
         | [] => "NO HAND"%string
         | _ :: _ => "HAND DETECTED"%string
         end in
  mkDebugFrame multi_hand_landmarks status.

(** The loop of [HeartDetector.detect] over the hands, with the assignments
    to the detector's fields. *)
Fixpoint detect_hands (M : MathLib) (hands : list Hand)
  : option (Detection * Detector) :=
  match hands with
  | [] => Some (mkDetection false None false None,
                mkDetector false None false None)
  | hand_landmarks :: rest =>
      do r <- _detect_gun_gesture M hand_landmarks;
      let '(shoot_pos, aiming, aim_pos) := r in
      if Py.truthy shoot_pos then
        Some (mkDetection true shoot_pos false None,
              mkDetector true shoot_pos false None)
      else if aiming then
        Some (mkDetection false None true aim_pos,
              mkDetector false None true aim_pos)
      else detect_hands M rest
  end.

(** [HeartDetector.detect] as a method: the debug frame is made first, from
    the fields as the previous call left them; then the fields are
    assigned. *)
Definition detect_frame (M : MathLib) (self : Detector)
           (multi_hand_landmarks : list Hand)
  : option (Detection * DebugFrame * Detector) :=
  let debug_frame := get_debug_frame self multi_hand_landmarks in
  do r <- detect_hands M multi_hand_landmarks;
  Some (fst r, debug_frame, snd r).

(** The detector over the frames of a run, from its initial fields: the
    verdict and the debug frame of each frame. *)
Fixpoint detect_run (M : MathLib) (self : Detector) (frames : list (list Hand))
  : option (list (Detection * DebugFrame)) :=
  match frames with
  | [] => Some []
  | hands :: rest =>
      do r <- detect_frame M self hands;
      let '(d, debug_frame, self') := r in
      do out <- detect_run M self' rest;
      Some ((d, debug_frame) :: out)
  end.

(** ** Texts of the game and result screens *)

(** [str(n)] of an integer. *)
Definition py_str (n : Z) : String.string :=
  DecimalString.NilZero.string_of_int (Z.to_int n).

(** The format [{n:02d}]: zero-padded to two characters. *)
Definition format_02d (n : Z) : String.string :=
  if (0 <=? n) && (n <? 10) then String.append "0" (py_str n) else py_str n.

(** The ticket line of [Game._draw_result_screen] (lines 760-798) with its
    colour: red below zero, the highlight colour otherwise. *)
Definition ticket_text (g : Game) : String.string * Color :=
  let tickets_seconds := calculate_time_tickets g in
  if tickets_seconds <? 0 then
    let abs_seconds := Z.abs tickets_seconds in
    let minutes := abs_seconds / 60 in
    let seconds := abs_seconds mod 60 in
    (if minutes >? 0 then
       String.append "TICKETS: -"
         (String.append (py_str minutes)
            (String.append ":" (format_02d seconds)))
     else
       String.append "TICKETS: -" (String.append (py_str seconds) "s"),
     (255, 99, 71))
  else
    let minutes := tickets_seconds / 60 in
    let seconds := tickets_seconds mod 60 in
    (if minutes >? 0 then
       String.append "TICKETS: +"
         (String.append (py_str minutes)
            (String.append ":" (format_02d seconds)))
     else
       String.append "TICKETS: +" (String.append (py_str seconds) "s"),
     (255, 215, 0)).

(** The number of seconds [Game._draw_game_screen] shows after "TIME: "
    (lines 696-698 and 717): [int(max(0, GAME_DURATION - elapsed_time))];
    [None] when [int] raises. *)
Definition remaining_seconds (current_time : float) (g : Game) : option Z :=
  let elapsed_time := (current_time - game_start_time g)%float in
  let r := (Py.of_int GAME_DURATION - elapsed_time)%float in
  if (0 <? r)%float then Py.to_int r else Some 0.

(** ** The camera manager of [camera_manager.py] *)

(** One entry of the configuration's "registered_cameras" list, with the
    keys the program reads; an absent key is [None]. *)
Record Registered : Type := mkRegistered {
  reg_serial : option String.string;
  reg_model : option String.string;
  reg_last_seen_device : option String.string;
  reg_preferred_resolution : option (Z * Z);
  reg_preferred_fps : option Z;
  reg_preferred_format : option String.string
}.

(** The configuration: the value of "registered_cameras", [None] when the
    key is absent. *)
Definition Config : Type := option (list Registered).

(** What the four searches of [_get_device_info] find in the output of
    v4l2-ctl. *)
Record DeviceInfo : Type := mkDeviceInfo {
  info_model : option String.string;
  info_serial : option String.string;
  info_bus_info : option String.string;
  info_driver : option String.string
}.

(** A run of v4l2-ctl on a device: it timed out or the program was not
    found (the two exceptions [_get_device_info] catches), it raised another
    exception (PermissionError, for one), or it ended with a return code and
    an output. *)
Inductive V4l2Run : Type :=
| run_failed
| run_raised
| run_exit (returncode : Z) (found : DeviceInfo).

(** The world the manager looks at. *)
Record CameraEnv : Type := mkCameraEnv {
  path_exists : String.string -> bool;      (* Path(p).exists() *)
  v4l2_ctl : String.string -> V4l2Run;      (* subprocess.run([...]) *)
  capture_opens : String.string -> bool;    (* VideoCapture(p).isOpened() *)
  config_writable : bool                    (* open(config_path, 'w') and
                                               json.dump do not raise *)
}.

(** The exceptions that leave the manager's methods: the KeyError of
    [registered['model']], the exception of [subprocess.run] that
    [_get_device_info] does not catch, and the exception of [_save_config]. *)
Inductive Error : Type := KeyError | RunError | WriteError.

(** What a method that can raise returns. *)
Inductive Outcome (A : Type) : Type :=
| Returned (a : A)
| Raised (e : Error).
Arguments Returned {A} a.
Arguments Raised {A} e.

(** [CameraManager._get_device_info] *)
Definition _get_device_info (env : CameraEnv) (device_path : String.string)
  : Outcome (option DeviceInfo) :=
  match v4l2_ctl env device_path with
  | run_failed => Returned None
  | run_raised => Raised RunError
  | run_exit returncode info =>
      if negb (returncode =? 0) then Returned None
      else
        match info with
        | mkDeviceInfo None None None None => Returned None
        | _ => Returned (Some info)
        end
  end.

(** The path [f"/dev/video{i}"]. *)
Definition video_device (i : nat) : String.string :=
  String.append "/dev/video" (py_str (Z.of_nat i)).

(** The inner loop of [find_registered_camera] (lines 84-93): the first
    entry with the device's serial gets the device path; the result is the
    changed list, or [None] when no entry matches. Printing the entry's
    model raises when the entry has none. *)
Fixpoint match_registered (serial device_path : String.string)
         (registered_cameras : list Registered)
  : Outcome (option (list Registered)) :=
  match registered_cameras with
  | [] => Returned None
  | registered :: rest =>
      if match reg_serial registered with
         | Some s => String.eqb serial s
         | None => false
         end
      then
        match reg_model registered with
        | None => Raised KeyError
        | Some _ =>
            Returned
              (Some (mkRegistered (reg_serial registered)
                                  (reg_model registered)
                                  (Some device_path)
                                  (reg_preferred_resolution registered)
                                  (reg_preferred_fps registered)
                                  (reg_preferred_format registered) :: rest))
        end
      else
        match match_registered serial device_path rest with
        | Returned (Some rest') => Returned (Some (registered :: rest'))
        | Returned None => Returned None
        | Raised e => Raised e
        end
  end.

(** The result of [find_registered_camera]: the device path if one is
    found, the configuration as the call leaves it, and what it wrote to the
    configuration file, if it wrote. *)
Record Found : Type := mkFound {
  found_path : option String.string;
  found_config : Config;
  found_saved : option Config
}.

(** The loop over [range(10)], from index [i] for [n] more indices. The
    matching entry is changed before [_save_config] is called; when the
    call raises, the exception leaves the search. *)
Fixpoint probe_devices (env : CameraEnv) (cams : list Registered)
         (i n : nat) : Outcome Found :=
  match n with
  | O => Returned (mkFound None (Some cams) None)
  | S n' =>
      let device_path := video_device i in
      if negb (path_exists env device_path) then
        probe_devices env cams (S i) n'
      else
        match _get_device_info env device_path with
        | Raised e => Raised e
        | Returned None => probe_devices env cams (S i) n'
        | Returned (Some device_info) =>
            match info_serial device_info with
            | None => probe_devices env cams (S i) n'
            | Some serial =>
                match match_registered serial device_path cams with
                | Raised e => Raised e
                | Returned (Some cams') =>
                    if config_writable env then
                      Returned (mkFound (Some device_path) (Some cams')
                                        (Some (Some cams')))
                    else Raised WriteError
                | Returned None => probe_devices env cams (S i) n'
                end
            end
        end
  end.

(** [CameraManager.find_registered_camera] *)
Definition find_registered_camera (env : CameraEnv) (config : Config)
  : Outcome Found :=
  match config with
  | None => Returned (mkFound None config None)
  | Some [] => Returned (mkFound None config None)
  | Some cams => probe_devices env cams 0 10
  end.

(** The camera properties [initialize] sets. *)
Inductive CameraSetting : Type :=
| set_frame_width (w : Z)
| set_frame_height (h : Z)
| set_fps (fps : Z)
| set_fourcc_mjpg.

(** The manager after [initialize]: the device it chose, whether the
    capture opened, the settings it applied in order, the configuration and
    what was written to the file. *)
Record Manager : Type := mkManager {
  device_path : String.string;
  camera_opened : bool;
  applied : list CameraSetting;
  config : Config;
  saved : option Config
}.

(** The settings of lines 127-141, from the first registered entry. *)
Definition preferred_settings (config : Config) : list CameraSetting :=
  match config with
  | Some (cam_config :: _) =>
      match reg_preferred_resolution cam_config with
      | Some (width, height) => [set_frame_width width; set_frame_height height]
      | None => []
      end ++
      match reg_preferred_fps cam_config with
      | Some fps => [set_fps fps]
      | None => []
      end ++
      match reg_preferred_format cam_config with
      | Some fmt => if String.eqb fmt "MJPG" then [set_fourcc_mjpg] else []
      | None => []
      end
  | _ => []
  end.

(** Truth value of an optional string: [None] and the empty string are
    false. *)
Definition str_truthy (o : option String.string) : bool :=
  match o with
  | None => false
  | Some s => negb (String.eqb s "")
  end.

(** Truth value of [config.get("registered_cameras")]. *)
Definition has_registered (config : Config) : bool :=
  match config with
  | Some (_ :: _) => true
  | _ => false
  end.

(** Lines 103-116 of [initialize]: the device to open, given what
    [find_registered_camera] returned. *)
Definition choose_device (env : CameraEnv) (config : Config)
           (device_path : option String.string) : String.string :=
  let device_path :=
    if negb (str_truthy device_path) && has_registered config then
      match config with
      | Some (first :: _) =>
          let last_seen := reg_last_seen_device first in
          if str_truthy last_seen then
            match last_seen with
            | Some p => if path_exists env p then last_seen else device_path
            | None => device_path
            end
          else device_path
      | _ => device_path
      end
    else device_path in
  match device_path with
  | Some p => if str_truthy device_path then p else "/dev/video0"%string
  | None => "/dev/video0"%string
  end.

(** [CameraManager.initialize]: the returned flag and the manager. *)
Definition initialize (env : CameraEnv) (config0 : Config)
  : Outcome (bool * Manager) :=
  match find_registered_camera env config0 with
  | Raised e => Raised e
  | Returned f =>
      let config := found_config f in
      let device_path := choose_device env config (found_path f) in
      if negb (capture_opens env device_path) then
        Returned (false, mkManager device_path false [] config (found_saved f))
      else
        Returned (true, mkManager device_path true (preferred_settings config)
                                  config (found_saved f))
  end.

(** [CameraManager._load_config]: the file's content if the file exists,
    an empty list of registered cameras otherwise. *)
Definition _load_config (file : option Config) : Config :=
  match file with
  | Some c => c
  | None => Some []
  end.

(** ** Reference tables and predicates used in the statements *)

(** The (score_value, radius, effective speed) triple of a type, as the
    specification lists it; a multiplier of 1.0 leaves the base speed as it
    is. *)
Definition spec_triple (t : BalloonType) (base_speed : float)
  : Z * Z * float :=
  match t with
  | normal => (10, BALLOON_SIZE, base_speed)
  | bonus => (20, BALLOON_SIZE + 2, base_speed)
  | penalty => (-30, BALLOON_SIZE, base_speed)
  | fast => (15, BALLOON_SIZE, (base_speed * 1.8)%float)
  | zigzag => (15, BALLOON_SIZE, base_speed)
  | ultra_rare => (100, BALLOON_SIZE + 3, (base_speed * 3.0)%float)
  end.

(** The cumulative probabilities, category by category, summed from the
    left as the draw loop sums them. *)
Fixpoint running_sums (items : list (BalloonType * float)) (acc : float)
  : list (BalloonType * float) :=
  match items with
  | [] => []
  | (t, p) :: rest => (t, (acc + p)%float) :: running_sums rest (acc + p)%float
  end.

(** A balloon that the hit loop would resolve against at a point. *)
Definition hittable (M : MathLib) (vx vy : float) (b : Balloon) : bool :=
  b_alive b && (distance_to M b vx vy <? Py.of_int (b_radius b + 15))%float.

(** The rising edges of a sequence of booleans, given the value before the
    first one. *)
Definition rising_at (prev : bool) (bs : list bool) (i : nat) : Prop :=
  nth i bs false = true /\
  match i with
  | O => prev = false
  | S j => nth j bs false = false
  end.

(** The hit test in the specification's words, over a power operator: the
    balloon is alive, and its distance to the point (vx, vy), the power 0.5
    of the sum of the squared coordinate differences, is below its radius
    plus 15. *)
Definition within_reach (power : float -> float -> float) (vx vy : float)
           (b : Balloon) : bool :=
  b_alive b &&
  (power (power (b_x b - vx) 2 + power (b_y b - vy) 2) 0.5
   <? Py.of_int (b_radius b + 15))%float.

(** The same test with the product and the square root of binary64. *)
Definition within_euclid (vx vy : float) (b : Balloon) : bool :=
  b_alive b &&
  (PrimFloat.sqrt ((b_x b - vx) * (b_x b - vx) + (b_y b - vy) * (b_y b - vy))
   <? Py.of_int (b_radius b + 15))%float.

(** What an accepted shot does to the balloons and the counters, given the
    test [reach] that tells which balloons the shot point reaches: nothing
    when it reaches no balloon, otherwise the first balloon of the list it
    reaches, and only that one, is marked dead and scored. *)
Definition first_hit_outcome (reach : Balloon -> bool) (g g' : Game) : Prop :=
  (Forall (fun b => reach b = false) (balloons g) /\
   balloons g' = balloons g /\ score g' = score g /\
   balloons_popped g' = balloons_popped g)
  \/
  (exists before b after,
      balloons g = before ++ b :: after /\
      Forall (fun b0 => reach b0 = false) before /\
      reach b = true /\
      balloons g' = before ++ Balloon_kill b :: after /\
      b_alive (Balloon_kill b) = false /\
      score g' = score g + b_score_value b /\
      (0 < b_score_value b -> balloons_popped g' = balloons_popped g + 1) /\
      (b_score_value b <= 0 -> balloons_popped g' = balloons_popped g)).

(** A run of [update] calls, each with its clock reading, its draw and its
    time step. *)
Definition run_updates (M : MathLib) (ups : list (float * SpawnDraw * float))
           (g : Game) : Game :=
  fold_left (fun g u => let '(now, d, dt) := u in update M now d dt g) ups g.

(** A session started at [t0] on which no shot has scored: what [update]
    keeps of it. *)
Definition idle_run (t0 : float) (g : Game) : Prop :=
  score g = 0 /\ balloons_popped g = 0 /\ game_start_time g = t0 /\
  state g <> READY.

(** The landmark at an index of a hand. *)
Definition lm (hand : Hand) (i : nat) : Landmark :=
  nth i hand (mkLandmark 0 0).

(** A finger counts as extended when its tip is above its middle joint by
    more than the margin. *)
Definition extended (hand : Hand) (tip pip : nat) : bool :=
  (lm_y (lm hand tip) <? lm_y (lm hand pip) - 0.015)%float.

(** The strict gun: index extended, middle, ring and little finger not. *)
Definition strict_gun (hand : Hand) : bool :=
  extended hand 8 6 && negb (extended hand 12 10) &&
  negb (extended hand 16 14) && negb (extended hand 20 18).

(** The wrist-to-index-tip angle lies between 225 and 315 degrees: the
    angle is the arc tangent of the differences of the y and of the x
    coordinates of index tip (landmark 8) and wrist (landmark 0), in degrees,
    with 360 added when it is negative. *)
Definition points_up (M : MathLib) (hand : Hand) : bool :=
  let dx := (lm_x (lm hand 8) - lm_x (lm hand 0))%float in
  let dy := (lm_y (lm hand 8) - lm_y (lm hand 0))%float in
  let raw := degrees M (arctan2 M dy dx) in
  let a := if (raw <? 0)%float then (raw + 360)%float else raw in
  (225 <=? a)%float && (a <=? 315)%float.

(** The three verdicts of the classifier. *)
Definition verdict_shoot (p : Z * Z) : Detection :=
  mkDetection true (Some p) false None.
Definition verdict_aiming (p : Z * Z) : Detection :=
  mkDetection false None true (Some p).

(** *** Observing the main loop *)

(** The loop variables before the first iteration (lines 52-54). *)
Definition Loop_init (t0 : float) : Loop := mkLoop t0 false None.

(** What can be seen of one iteration that had a frame: the game state it
    found, the classifier's verdict, whether the rising-edge condition held,
    and the arguments of the [game.shoot] call it made, if any. *)
Record Observation : Type := mkObservation {
  obs_state : GameState;
  obs_detection : Detection;
  obs_triggered : bool;
  obs_request : option (Z * Z)
}.

Definition observe (d : Detection) (st : Loop * Game) : Observation :=
  let st1 := record_aim d st in
  mkObservation (state (snd st)) d (triggered d (fst st1))
                (shoot_request d (fst st1) (snd st1)).

Definition frame_obs (M : MathLib) (tk : Tick) (st : Loop * Game)
  : list Observation :=
  match tick_frame tk with
  | Some hands =>
      match detect M hands with
      | Some d => [observe d st]
      | None => []
      end
  | None => []
  end.

(** The observations of a run of the main loop, one per executed iteration
    that had a frame, in order. *)
Fixpoint main_log (M : MathLib) (ticks : list Tick) (st : Loop * Game)
  : list Observation :=
  match ticks with
  | [] => []
  | tk :: rest =>
      if running (snd st) then
        match main_iteration M tk st with
        | Some st' => frame_obs M tk st ++ main_log M rest st'
        | None => []
        end
      else []
  end.

(** The position an aiming verdict carries. *)
Definition aim_of (d : Detection) : option (Z * Z) :=
  if det_is_aiming d then det_aiming_position d else None.

(** The same, counted only when the game was in READY or RUN. *)
Definition recorded_aim (o : Observation) : option (Z * Z) :=
  match obs_state o with
  | RESULT => None
  | _ => aim_of (obs_detection o)
  end.

(** The value of [f] at the latest element of a list that has one. *)
Fixpoint latest {A B : Type} (f : A -> option B) (l : list A) : option B :=
  match l with
  | [] => None
  | a :: rest =>
      match latest f rest with
      | Some b => Some b
      | None => f a
      end
  end.

(** The position of the most recent aiming verdict of a log. *)
Definition last_aim_verdict (log : list Observation) : option (Z * Z) :=
  latest (fun o => aim_of (obs_detection o)) log.

(** The position of the most recent aiming verdict seen in READY or RUN. *)
Definition last_aim_recorded (log : list Observation) : option (Z * Z) :=
  latest recorded_aim log.

Definition is_run (s : GameState) : bool :=
  match s with RUN => true | _ => false end.

Definition with_heart_position (q : option (Z * Z)) (d : Detection)
  : Detection :=
  mkDetection (heart_detected d) q (det_is_aiming d) (det_aiming_position d).

(** The rising edges of a sequence, computed along it. *)
Fixpoint edges (prev : bool) (bs : list bool) : list bool :=
  match bs with
  | [] => []
  | b :: rest => (b && negb prev) :: edges b rest
  end.

(** *** Predicates for the session's life cycle *)

(** The key a state acts on: SPACE in READY, M in RUN, R in RESULT. *)
Definition acts_on (s : GameState) (k : Key) : bool :=
  match s, k with
  | READY, K_SPACE => true
  | RUN, K_m => true
  | RESULT, K_r => true
  | _, _ => false
  end.

(** An event that asks to leave the program. *)
Definition quits (event : Event) : bool :=
  match event with
  | QUIT => true
  | KEYDOWN K_ESCAPE => true
  | KEYDOWN K_q => true
  | _ => false
  end.

(** The total score value of the balloons that are still alive. *)
Fixpoint live_value (bs : list Balloon) : Z :=
  match bs with
  | [] => 0
  | b :: rest => (if b_alive b then b_score_value b else 0) + live_value rest
  end.

(** Score value and radius are those of the balloon's type. *)
Definition well_typed (b : Balloon) : Prop :=
  (b_score_value b, b_radius b) = fst (spec_triple (b_type b) (b_speed b)).

(** *** Predicates for the camera search *)

(** An entry carries the serial number. *)
Definition has_serial (serial : String.string) (r : Registered) : bool :=
  match reg_serial r with
  | Some s => String.eqb serial s
  | None => false
  end.

(** The serial number v4l2-ctl reports for the device of index [i]: the
    run ended with return code 0 and its output has a serial line. *)
Definition reported_serial (env : CameraEnv) (i : nat)
  : option String.string :=
  match v4l2_ctl env (video_device i) with
  | run_exit 0 info => info_serial info
  | _ => None
  end.

(** The device of index [i] exists, reports a serial number, and an entry of
    the list carries that number. *)
Definition device_matches (env : CameraEnv) (cams : list Registered)
           (i : nat) : bool :=
  path_exists env (video_device i) &&
  match reported_serial env i with
  | Some serial => existsb (has_serial serial) cams
  | None => false
  end.

(** The run of v4l2-ctl on the device of index [i], which exists, raises an
    exception that is not caught. *)
Definition run_raises (env : CameraEnv) (i : nat) : bool :=
  path_exists env (video_device i) &&
  match v4l2_ctl env (video_device i) with
  | run_raised => true
  | _ => false
  end.

(** An entry with its last seen device set. *)
Definition seen_at (p : String.string) (r : Registered) : Registered :=
  mkRegistered (reg_serial r) (reg_model r) (Some p)
               (reg_preferred_resolution r) (reg_preferred_fps r)
               (reg_preferred_format r).

(** The list [cams'] is [cams] with the first entry carrying the serial
    marked as seen at [p]. *)
Definition marks_first (serial p : String.string)
           (cams cams' : list Registered) : Prop :=
  exists before r after,
    cams = before ++ r :: after /\
    existsb (has_serial serial) before = false /\
    has_serial serial r = true /\
    cams' = before ++ seen_at p r :: after.

(** The search passes the device of index [j]: it matches no entry, and the
    run of v4l2-ctl on it raises nothing that is not caught. *)
Definition skipped (env : CameraEnv) (cams : list Registered)
           (j : nat) : bool :=
  negb (device_matches env cams j) && negb (run_raises env j).

(** The entry [r] is the first of the list that carries the serial. *)
Definition first_with (serial : String.string) (cams : list Registered)
           (r : Registered) : Prop :=
  exists before after,
    cams = before ++ r :: after /\
    existsb (has_serial serial) before = false /\
    has_serial serial r = true.

(** Why the search raises [e] when it comes to the device of index [k]. *)
Definition raise_cause (env : CameraEnv) (cams : list Registered)
           (k : nat) (e : Error) : Prop :=
  match e with
  | KeyError =>
      path_exists env (video_device k) = true /\
      exists serial r,
        reported_serial env k = Some serial /\
        first_with serial cams r /\ reg_model r = None
  | RunError => run_raises env k = true
  | WriteError =>
      path_exists env (video_device k) = true /\
      exists serial r,
        reported_serial env k = Some serial /\
        first_with serial cams r /\ reg_model r <> None /\
        config_writable env = false
  end.

(** What a search over the devices of index [i] to [i + n - 1] ends with. *)
Definition search_result (env : CameraEnv) (cams : list Registered)
           (i n : nat) (o : Outcome Found) : Prop :=
  match o with
  | Returned f =>
      match found_path f with
      | Some p =>
          exists k serial cams',
            (i <= k < i + n)%nat /\ p = video_device k /\
            path_exists env p = true /\
            reported_serial env k = Some serial /\
            existsb (has_serial serial) cams = true /\
            (forall j, (i <= j < k)%nat -> skipped env cams j = true) /\
            marks_first serial p cams cams' /\
            (exists r, first_with serial cams r /\ reg_model r <> None) /\
            config_writable env = true /\
            found_config f = Some cams' /\
            found_saved f = Some (Some cams')
      | None =>
          (forall j, (i <= j < i + n)%nat -> skipped env cams j = true) /\
          found_config f = Some cams /\ found_saved f = None
      end
  | Raised e =>
      exists k,
        (i <= k < i + n)%nat /\
        (forall j, (i <= j < k)%nat -> skipped env cams j = true) /\
        raise_cause env cams k e
  end.

(** ** A concrete numeric library, for evaluating the model on examples *)

Module Example.

Definition pi : float := 3.141592653589793%float.

(** A seventh-order Taylor polynomial. *)
Definition taylor_sin (a : float) : float :=
  let a2 := (a * a)%float in
  (a * (1 - a2 / 6 * (1 - a2 / 20 * (1 - a2 / 42))))%float.

(** The arc tangent on [-1, 1], to a few thousandths of a radian. *)
Definition atan_unit (z : float) : float :=
  (pi / 4 * z + 0.273 * z * (1 - PrimFloat.abs z))%float.

(** The quadrant-aware arc tangent, exact on the coordinate axes. *)
Definition atan2 (y x : float) : float :=
  if (PrimFloat.abs y <=? PrimFloat.abs x)%float then
    if (x =? 0)%float then 0%float
    else
      let a := atan_unit (y / x) in
      if (0 <? x)%float then a
      else if (0 <=? y)%float then (a + pi)%float else (a - pi)%float
  else
    let a := atan_unit (x / y) in
    if (0 <? y)%float then (pi / 2 - a)%float else (- (pi / 2) - a)%float.

Definition rad2deg (a : float) : float := (a * (180 / pi))%float.

(** The power operator at the two exponents the program uses. *)
Definition power (x y : float) : float :=
  if (y =? 2)%float then (x * x)%float
  else if (y =? 0.5)%float then PrimFloat.sqrt x
  else PrimFloat.nan.

Definition lib : MathLib := mkMathLib power taylor_sin atan2 rad2deg.

(** A hand of 21 landmarks given by its wrist, the index finger's middle
    joint and tip, and one (middle joint, tip) pair shared by the middle,
    ring and little fingers. *)
Definition hand (wrist index_pip index_tip other_pip other_tip : Landmark)
  : Hand :=
  [ wrist; wrist; wrist; wrist; wrist; wrist; index_pip; index_pip;
    index_tip; other_pip; other_pip; other_pip; other_tip; other_pip;
    other_pip; other_pip; other_tip; other_pip; other_pip; other_pip;
    other_tip ].

(** A gun pointing up in the image: index extended above the wrist, the
    other fingers curled. The tip lies at (px/1000, py/1000). *)
Definition hand_up (px py : float) : Hand :=
  hand (mkLandmark px (py + 0.3)) (mkLandmark px (py + 0.1))
       (mkLandmark px py)
       (mkLandmark (px + 0.05) (py + 0.2)) (mkLandmark (px + 0.05) (py + 0.25)).

(** A gun held level, pointing right: the index tip is not above its
    middle joint. *)
Definition hand_level (px py : float) : Hand :=
  hand (mkLandmark (px - 0.3) py) (mkLandmark (px - 0.1) py)
       (mkLandmark px py)
       (mkLandmark (px - 0.2) (py + 0.05)) (mkLandmark (px - 0.25) (py + 0.05)).

(** A running session with two balloons at the same place, a bonus one
    inserted before a penalty one. *)
Definition overlap_game : Game :=
  mkGame RUN 0 0 0 0 0
         [ Balloon_init 240 135 (255, 99, 71) 25 bonus;
           Balloon_init 240 135 (255, 99, 71) 25 penalty ]
         [] true false None.

Definition some_draw : SpawnDraw := mkSpawnDraw 100 (255, 99, 71) 25 0.5.

(** An iteration with a frame showing one hand, no event, at clock [t]. *)
Definition frame_tick (t : float) (h : Hand) : Tick :=
  mkTick t (Some [h]) t [] t some_draw.

(** Five frames: level, up, up, level, up, during a game started before
    the first of them. *)
Definition held_gesture_run : list Tick :=
  [ frame_tick 1.0 (hand_level 0.25 0.5);
    frame_tick 1.1 (hand_up 0.25 0.2);
    frame_tick 1.2 (hand_up 0.25 0.2);
    frame_tick 1.3 (hand_level 0.25 0.5);
    frame_tick 1.6 (hand_up 0.25 0.2) ].

(** A key pressed at clock [t]. *)
Definition key (k : Key) (t : float) : Event * float * float :=
  (KEYDOWN k, t, t).

(** A session that is played to its end and restarted: aiming at
    (250, 500) before the start; the time runs out; aiming at (700, 300)
    on the result screen, then R; a frame without a hand, then SPACE; and
    the gun pointing up. *)
Definition replay_run : list Tick :=
  [ mkTick 1.0 (Some [hand_level 0.25 0.5]) 1.0
           [key K_SPACE 1.0] 1.0 some_draw;
    mkTick 31.5 (Some [hand_level 0.25 0.5]) 31.5 [] 31.5 some_draw;
    mkTick 40.0 (Some [hand_level 0.7 0.3]) 40.0
           [key K_r 40.0] 40.0 some_draw;
    mkTick 41.0 (Some []) 41.0
           [key K_SPACE 41.0] 41.0 some_draw;
    mkTick 41.1 (Some [hand_up 0.6 0.2]) 41.1 [] 41.1 some_draw ].

Definition replay_log : list Observation :=
  main_log lib replay_run (Loop_init 0, Game_init).

(** A finished session with ten balloons popped. *)
Definition ten_popped : Game :=
  mkGame RESULT 100 10 0 0 0 [] [] true false None.

(** A running session in which a shot has just popped the only balloon: the
    dead balloon and the shot's effect are still in the lists. *)
Definition after_hit : Game :=
  shoot lib 10 500 500
        (mkGame RUN 0 0 5 0 9.9
                [Balloon_init 240 135 (255, 99, 71) 25 normal]
                [] true false None).

(** An iteration in which the window is closed. *)
Definition quit_tick : Tick :=
  mkTick 2.0 None 2.0 [(QUIT, 2.0%float, 2.0%float)] 2.0 some_draw.

(** Two registered cameras; the second one is plugged in as /dev/video2,
    next to an unregistered camera at /dev/video0. *)
Definition two_cameras : Config :=
  Some [ mkRegistered (Some "A100"%string) (Some "Front"%string) None
                      (Some (1280, 720)) (Some 30) (Some "MJPG"%string);
         mkRegistered (Some "B200"%string) (Some "Spare"%string) None
                      None None None ].

Definition spare_plugged : CameraEnv :=
  mkCameraEnv
    (fun p => String.eqb p "/dev/video0" || String.eqb p "/dev/video2")
    (fun p =>
       if String.eqb p "/dev/video2" then
         run_exit 0 (mkDeviceInfo (Some "Spare"%string) (Some "B200"%string)
                                  None None)
       else if String.eqb p "/dev/video0" then
         run_exit 0 (mkDeviceInfo (Some "Builtin"%string) None None None)
       else run_failed)
    (fun p => true) true.

(** The front camera is plugged in as /dev/video1. *)
Definition front_plugged : CameraEnv :=
  mkCameraEnv
    (fun p => String.eqb p "/dev/video1")
    (fun p =>
       if String.eqb p "/dev/video1" then
         run_exit 0 (mkDeviceInfo (Some "Front"%string) (Some "A100"%string)
                                  None None)
       else run_failed)
    (fun p => true) true.

(** Later the device is still there but v4l2-ctl is not installed. *)
Definition no_v4l2 : CameraEnv :=
  mkCameraEnv (fun p => String.eqb p "/dev/video1") (fun p => run_failed)
              (fun p => true) true.

(** Nothing is plugged in and nothing opens. *)
Definition no_camera : CameraEnv :=
  mkCameraEnv (fun p => false) (fun p => run_failed) (fun p => false) true.

(** The spare camera is plugged in, but the configuration file cannot be
    written. *)
Definition read_only : CameraEnv :=
  mkCameraEnv (path_exists spare_plugged) (v4l2_ctl spare_plugged)
              (capture_opens spare_plugged) false.

(** The spare camera is plugged in as /dev/video2, but running v4l2-ctl on
    /dev/video0 is not permitted. *)
Definition denied : CameraEnv :=
  mkCameraEnv
    (path_exists spare_plugged)
    (fun p => if String.eqb p "/dev/video0" then run_raised
              else v4l2_ctl spare_plugged p)
    (capture_opens spare_plugged) true.

(** The spare camera is registered without its model name. *)
Definition nameless : Config :=
  Some [ mkRegistered (Some "A100"%string) (Some "Front"%string) None
                      (Some (1280, 720)) (Some 30) (Some "MJPG"%string);
         mkRegistered (Some "B200"%string) None None None None None ].

(** A game is started with SPACE at clock 1.0; the update at clock 1.9
    spawns a balloon. *)
Definition spawn_run : list Tick :=
  [ mkTick 1.0 (Some [hand_level 0.208 0.998]) 1.0
           [key K_SPACE 1.0] 1.0 some_draw;
    frame_tick 1.9 (hand_level 0.208 0.998) ].

(** The same run, followed by a frame with the gun pointing up. *)
Definition hit_run : list Tick :=
  spawn_run ++ [ frame_tick 2.0 (hand_up 0.5 0.4) ].

(** A running session with three balloons: a normal one far to the left, and
    a bonus and a penalty one at the same place. *)
Definition far_near_game : Game :=
  mkGame RUN 0 0 0 0 0
         [ Balloon_init 100 135 (255, 99, 71) 25 normal;
           Balloon_init 240 135 (255, 99, 71) 25 bonus;
           Balloon_init 240 135 (255, 99, 71) 25 penalty ]
         [] true false None.

(** A running session with one normal balloon, of radius 12, at
    (240, 135). *)
Definition one_balloon : Game :=
  mkGame RUN 0 0 0 0 0
         [ Balloon_init 240 135 (255, 99, 71) 25 normal ]
         [] true false None.

(** A strict gun that points to the right and slightly up: the index is
    extended, the other fingers are curled, the tip lies at (0.5, 0.42). *)
Definition hand_side : Hand :=
  hand (mkLandmark 0.2 0.5) (mkLandmark 0.4 0.45) (mkLandmark 0.5 0.42)
       (mkLandmark 0.3 0.5) (mkLandmark 0.28 0.52).

End Example.

(** ** Balloon parameters (C9) *)

Lemma Balloon_init_triple (x y : float) (c : Color) (s : float)
      (t : BalloonType) :
  let b := Balloon_init x y c s t in
  (b_score_value b, b_radius b, b_speed b) = spec_triple t s /\ b_type b = t.
Proof. destruct t; split; reflexivity. Qed.

Lemma Balloon_update_keeps (M : MathLib) (dt : float) (b : Balloon) :
  b_score_value (Balloon_update M dt b) = b_score_value b /\
  b_radius (Balloon_update M dt b) = b_radius b.
Proof. split; reflexivity. Qed.

Lemma update_balloons_origin (M : MathLib) (now : float) (d : SpawnDraw)
      (dt : float) (g : Game) (b' : Balloon) :
  In b' (balloons (update M now d dt g)) ->
  exists b,
    (In b (balloons g) \/
     b = Balloon_init (Py.of_int (draw_x d))
                      (Py.of_int (VIRTUAL_HEIGHT + BALLOON_SIZE))
                      (draw_color d) (draw_speed d)
                      (draw_balloon_type (draw_val d))) /\
    (b' = b \/ b' = Balloon_update M dt b).
Proof.
  unfold update.
  destruct (state g); try (intros Hin; exists b'; now auto).
  destruct (PrimFloat.leb _ _); [intros Hin; exists b'; now auto|].
  destruct (PrimFloat.leb _ _); cbn [balloons spawn_balloon with_balloons];
    intros Hin; apply filter_In in Hin; destruct Hin as [Hin _];
    apply in_map_iff in Hin; destruct Hin as (b & <- & Hb); exists b.
  - apply in_app_or in Hb. destruct Hb as [Hb | [<- | []]]; auto.
  - auto.
Qed.

(** C9: a balloon's score value, radius and effective speed are what the
    table of its type says when it is constructed (normal +10, base radius,
    base speed; bonus +20, base+2; penalty -30; fast +15 at base_speed*1.8;
    zigzag +15; ultra_rare +100, base+3, at base_speed*3.0); the per-tick
    update of a balloon leaves score value and radius as they are, and every
    balloon of the session after a tick is a balloon of before, or the newly
    spawned one, unchanged or updated once. *)
Theorem balloon_triple_fixed_by_type :
  (forall x y c s t,
      let b := Balloon_init x y c s t in
      (b_score_value b, b_radius b, b_speed b) = spec_triple t s /\
      b_type b = t) /\
  (forall M dt b,
      b_score_value (Balloon_update M dt b) = b_score_value b /\
      b_radius (Balloon_update M dt b) = b_radius b) /\
  (forall M now d dt g b',
      In b' (balloons (update M now d dt g)) ->
      exists b,
        (In b (balloons g) \/
         b = Balloon_init (Py.of_int (draw_x d))
                          (Py.of_int (VIRTUAL_HEIGHT + BALLOON_SIZE))
                          (draw_color d) (draw_speed d)
                          (draw_balloon_type (draw_val d))) /\
        (b' = b \/ b' = Balloon_update M dt b)).
Proof.
  split; [exact Balloon_init_triple|].
  split; [exact Balloon_update_keeps|exact update_balloons_origin].
Qed.

(** A fast and an ultra-rare balloon drawn with base speed 25. *)
Lemma balloon_triple_fixed_by_type_witness :
  (b_score_value (Balloon_init 100 282 (255, 99, 71) 25 fast),
   b_radius (Balloon_init 100 282 (255, 99, 71) 25 fast),
   b_speed (Balloon_init 100 282 (255, 99, 71) 25 fast))
  = (15, 12, 45%float) /\
  (b_score_value (Balloon_init 100 282 (255, 99, 71) 25 ultra_rare),
   b_radius (Balloon_init 100 282 (255, 99, 71) 25 ultra_rare),
   b_speed (Balloon_init 100 282 (255, 99, 71) 25 ultra_rare))
  = (100, 15, 75%float) /\
  b_radius (Balloon_update Example.lib 0.1
              (Balloon_init 100 282 (255, 99, 71) 25 ultra_rare)) = 15.
Proof.
  pose proof balloon_triple_fixed_by_type as (Hinit & Hupd & _).
  split; [|split].
  - etransitivity;
      [exact (proj1 (Hinit 100%float 282%float (255, 99, 71) 25%float fast))|].
    vm_compute. reflexivity.
  - etransitivity;
      [exact (proj1 (Hinit 100%float 282%float (255, 99, 71) 25%float
                           ultra_rare))|].
    vm_compute. reflexivity.
  - etransitivity; [exact (proj2 (Hupd Example.lib 0.1%float _))|].
    reflexivity.
Defined.

(** ** The time-ticket value (C3) *)

(** C3: the ticket value is determined by the popped count alone: 90 from 30
    on, (popped - 15) * 6 between 15 and 29, the same formula and a negative
    value below 15; 0 gives -90, 15 gives 0, 29 gives 84, 30 and 45 give 90.
    The method only returns this value; it assigns no field of the
    session. *)
Theorem time_tickets_by_popped : forall g : Game,
  let p := balloons_popped g in
  let t := calculate_time_tickets g in
  (30 <= p -> t = 90) /\
  (15 <= p <= 29 -> t = (p - 15) * 6) /\
  (p < 15 -> t = (p - 15) * 6 /\ t < 0) /\
  (p = 0 -> t = -90) /\ (p = 15 -> t = 0) /\ (p = 29 -> t = 84) /\
  (p = 30 -> t = 90) /\ (p = 45 -> t = 90) /\
  (forall g', balloons_popped g' = p -> calculate_time_tickets g' = t).
Proof.
  intros g p t. subst p t. unfold calculate_time_tickets.
  repeat split; intros;
    try (destruct (Z.geb_spec (balloons_popped g) 30);
         destruct (Z.geb_spec (balloons_popped g) 15); lia).
  match goal with H : balloons_popped _ = _ |- _ => rewrite H end.
  reflexivity.
Qed.

(** Ten balloons popped: thirty seconds are taken off. *)
Lemma time_tickets_by_popped_witness :
  balloons_popped Example.ten_popped < 15 /\
  calculate_time_tickets Example.ten_popped = -30.
Proof.
  pose proof (time_tickets_by_popped Example.ten_popped)
    as (_ & _ & Hlow & _).
  assert (H : balloons_popped Example.ten_popped < 15) by (cbn; lia).
  split; [exact H|]. exact (proj1 (Hlow H)).
Defined.

(** ** The weighted type draw (C4) *)

Lemma choose_type_scan (r : float) (dflt : BalloonType) :
  forall items acc,
    (exists before t c after,
        running_sums items acc = before ++ (t, c) :: after /\
        Forall (fun tc => (r <=? snd tc)%float = false) before /\
        (r <=? c)%float = true /\
        choose_type items r acc dflt = t) \/
    (Forall (fun tc => (r <=? snd tc)%float = false) (running_sums items acc) /\
     choose_type items r acc dflt = dflt).
Proof.
  induction items as [| [t p] rest IH]; intros acc; cbn [running_sums choose_type].
  - right. split; [constructor | reflexivity].
  - destruct (r <=? acc + p)%float eqn:Hle.
    + left. exists [], t, (acc + p)%float, (running_sums rest (acc + p)%float).
      repeat split; auto.
    + destruct (IH (acc + p)%float)
        as [(before & t' & c & after & Hsplit & Hbefore & Hc & Hch) | [Hall Hch]].
      * left. exists ((t, (acc + p)%float) :: before), t', c, after.
        rewrite Hsplit. repeat split; auto.
      * right. split; auto.
Qed.

Lemma cumulative_table :
  running_sums BALLOON_TYPES 0 =
  [ (normal, 0.35%float); (bonus, 0.55%float); (penalty, 0.75%float);
    (fast, 0.85%float); (zigzag, 0.95%float); (ultra_rare, 1%float) ].
Proof. vm_compute. reflexivity. Qed.

(** C4: for a drawn value between 0 and 1 the draw returns the first
    category, in the order normal, bonus, penalty, fast, zigzag, ultra_rare,
    whose cumulative probability (0.35, 0.55, 0.75, 0.85, 0.95, 1.0 as the
    loop sums them) is at least the drawn value; the drawn value 1.0 gives
    ultra_rare. *)
Theorem draw_first_cumulative (r : float) :
  (0 <=? r)%float = true -> (r <=? 1)%float = true ->
  (exists before t c after,
      [ (normal, 0.35%float); (bonus, 0.55%float); (penalty, 0.75%float);
        (fast, 0.85%float); (zigzag, 0.95%float); (ultra_rare, 1%float) ]
      = before ++ (t, c) :: after /\
      Forall (fun tc => (r <=? snd tc)%float = false) before /\
      (r <=? c)%float = true /\
      draw_balloon_type r = t) /\
  draw_balloon_type 1 = ultra_rare.
Proof.
  intros _ Hr1. split; [|vm_compute; reflexivity].
  rewrite <- cumulative_table. unfold draw_balloon_type.
  destruct (choose_type_scan r normal BALLOON_TYPES 0%float) as [H | [Hall _]];
    [exact H|].
  exfalso. rewrite cumulative_table in Hall.
  repeat match goal with
         | H : Forall _ (_ :: _) |- _ => inversion H; clear H; subst
         end.
  cbn [snd] in *. congruence.
Qed.

(** At the drawn value 0.5 the draw gives the second category. *)
Lemma draw_first_cumulative_witness :
  (0 <=? 0.5)%float = true /\ (0.5 <=? 1)%float = true /\
  draw_balloon_type 0.5 = bonus /\ draw_balloon_type 1 = ultra_rare.
Proof.
  pose proof (draw_first_cumulative 0.5%float eq_refl eq_refl) as [_ H1].
  split; [reflexivity|]. split; [reflexivity|].
  split; [vm_compute; reflexivity | exact H1].
Defined.

(** ** Shooting (C1, C2) *)

Lemma hit_scan_first (M : MathLib) (vx vy : float) (sc popped : Z) :
  forall bs,
    (Forall (fun b => hittable M vx vy b = false) bs /\
     hit_scan M bs vx vy sc popped = (bs, sc, popped)) \/
    (exists before b after,
        bs = before ++ b :: after /\
        Forall (fun b0 => hittable M vx vy b0 = false) before /\
        hittable M vx vy b = true /\
        hit_scan M bs vx vy sc popped =
        (before ++ Balloon_kill b :: after, sc + b_score_value b,
         if b_score_value b >? 0 then popped + 1 else popped)).
Proof.
  induction bs as [| b rest IH]; cbn [hit_scan].
  - left. split; [constructor | reflexivity].
  - change (b_alive b && collides_with M b vx vy HIT_RADIUS)
      with (hittable M vx vy b).
    destruct (hittable M vx vy b) eqn:Hb.
    + right. exists [], b, rest. repeat split; auto.
    + destruct IH as [[Hall Hscan] | (before & b1 & after & -> & Hbef & Hb1 & Hscan)];
        rewrite Hscan.
      * left. split; [constructor; assumption | reflexivity].
      * right. exists (b :: before), b1, after. repeat split; auto.
Qed.

Lemma shoot_rejected (M : MathLib) (now x y : float) (g : Game) :
  (now - last_shoot_time g <? SHOOT_COOLDOWN)%float = true ->
  shoot M now x y g = g.
Proof. intros H. unfold shoot. rewrite H. reflexivity. Qed.

Lemma shoot_accepted (M : MathLib) (now x y : float) (g : Game) :
  (now - last_shoot_time g <? SHOOT_COOLDOWN)%float = false ->
  shoot M now x y g =
  let r := hit_scan M (balloons g) (virtual_x x) (virtual_y y)
                    (score g) (balloons_popped g) in
  mkGame (state g) (snd (fst r)) (snd r) (game_start_time g) now
         (last_balloon_spawn g) (fst (fst r))
         (shoot_effects g ++ [ShootEffect_init (virtual_x x) (virtual_y y)])
         (running g) (is_aiming g) (aiming_position g).
Proof.
  intros H. unfold shoot. rewrite H. cbv zeta.
  destruct (hit_scan _ _ _ _ _) as [[bs sc] popped]. reflexivity.
Qed.

Lemma virtual_point (x y : float) :
  virtual_x x = (x / 1000 * 480)%float /\ virtual_y y = (y / 1000 * 270)%float.
Proof.
  unfold virtual_x, virtual_y.
  replace (Py.of_int VIRTUAL_WIDTH) with 480%float by (vm_compute; reflexivity).
  replace (Py.of_int VIRTUAL_HEIGHT) with 270%float by (vm_compute; reflexivity).
  split; reflexivity.
Qed.

Lemma first_hit_outcome_ext (r1 r2 : Balloon -> bool) (g g' : Game) :
  (forall b, r1 b = r2 b) ->
  first_hit_outcome r1 g g' -> first_hit_outcome r2 g g'.
Proof.
  intros Hext [(Hall & Hrest) | (before & b & after & Hsplit & Hbef & Hb & Hrest)].
  - left. split; [|exact Hrest].
    eapply Forall_impl; [|exact Hall]. intros b0 H0. rewrite <- Hext. exact H0.
  - right. exists before, b, after. split; [exact Hsplit|].
    split; [|split; [rewrite <- Hext; exact Hb | exact Hrest]].
    eapply Forall_impl; [|exact Hbef]. intros b0 H0. rewrite <- Hext. exact H0.
Qed.

(** C1: a shoot call at p that is not within 0.3 s of the last accepted one
    maps p to the virtual point (x / 1000 * 480, y / 1000 * 270), goes
    through the balloons in list order and resolves against the first one
    that is alive and whose distance to that point, the power 0.5 of the sum
    of the squared coordinate differences, is below its radius plus 15; only
    that balloon changes, its alive flag becoming false; its score value is
    added to the score, and the popped counter goes up by one exactly when
    the score value is positive. With no such balloon, balloons and counters
    stay as they are. Where the power operator squares and takes square
    roots as binary64 does, the distance is the square root of
    dx * dx + dy * dy. *)
Theorem shoot_first_hit (M : MathLib) (now x y : float) (g : Game) :
  (now - last_shoot_time g <? 0.3)%float = false ->
  first_hit_outcome
    (within_reach (pow M) (x / 1000 * 480)%float (y / 1000 * 270)%float)
    g (shoot M now x y g) /\
  ((forall a, pow M a 2 = (a * a)%float) ->
   (forall a, pow M a 0.5 = PrimFloat.sqrt a) ->
   first_hit_outcome
     (within_euclid (x / 1000 * 480)%float (y / 1000 * 270)%float)
     g (shoot M now x y g)).
Proof.
  intros Hacc.
  assert (Hout : first_hit_outcome
                   (within_reach (pow M) (x / 1000 * 480)%float
                                 (y / 1000 * 270)%float)
                   g (shoot M now x y g)).
  { destruct (virtual_point x y) as [<- <-].
    rewrite (shoot_accepted M _ _ _ _ Hacc). cbv zeta.
    destruct (hit_scan_first M (virtual_x x) (virtual_y y) (score g)
                             (balloons_popped g) (balloons g))
      as [[Hall Hscan] | (before & b & after & Hsplit & Hbef & Hb & Hscan)];
      rewrite Hscan; cbn [fst snd].
    - left. repeat split; auto.
    - right. exists before, b, after. cbn [balloons score balloons_popped].
      repeat split; auto.
      + intros Hpos.
        destruct (Z.gtb_spec (b_score_value b) 0); [reflexivity | lia].
      + intros Hneg.
        destruct (Z.gtb_spec (b_score_value b) 0); [lia | reflexivity]. }
  split; [exact Hout|]. intros Hsq Hsqrt.
  revert Hout. apply first_hit_outcome_ext. intros b.
  unfold within_reach, within_euclid. rewrite Hsqrt, !Hsq. reflexivity.
Qed.

(** A shot at the centre of the field: the normal balloon, first in the
    list, is 140 units away and is passed over; the bonus balloon is hit and
    the penalty balloon at the same place is left alone. On a single balloon
    of radius 12, a shot 26.4 units to its right hits and one 28.8 units to
    its right misses. *)
Lemma shoot_first_hit_witness :
  (10 - last_shoot_time Example.far_near_game <? 0.3)%float = false /\
  first_hit_outcome (within_euclid (500 / 1000 * 480)%float
                                   (500 / 1000 * 270)%float)
                    Example.far_near_game
                    (shoot Example.lib 10 500 500 Example.far_near_game) /\
  map (within_euclid (500 / 1000 * 480)%float (500 / 1000 * 270)%float)
      (balloons Example.far_near_game) = [false; true; true] /\
  map b_alive (balloons (shoot Example.lib 10 500 500 Example.far_near_game))
  = [true; false; true] /\
  score (shoot Example.lib 10 500 500 Example.far_near_game) = 20 /\
  balloons_popped (shoot Example.lib 10 500 500 Example.far_near_game) = 1 /\
  map b_alive (balloons (shoot Example.lib 10 555 500 Example.one_balloon))
  = [false] /\
  map b_alive (balloons (shoot Example.lib 10 560 500 Example.one_balloon))
  = [true].
Proof.
  split; [reflexivity|].
  split; [exact (proj2 (shoot_first_hit Example.lib 10 500 500
                                        Example.far_near_game eq_refl)
                       (fun a => eq_refl) (fun a => eq_refl))|].
  repeat split; vm_compute; reflexivity.
Defined.

(** C2: a shot accepted at time t1 (not within 0.3 s of the last accepted
    one) appends exactly one effect, whether or not a balloon is hit: a new
    effect of age 0 at the mapped position (x / 1000 * 480, y / 1000 * 270);
    and it records t1. A call at a time t2 less than 0.3 s after t1 returns
    the session as it is, so no effect, score, counter, balloon or timestamp
    changes; and so does any call that falls within 0.3 s of the recorded
    time. *)
Theorem shoot_cooldown_gate (M : MathLib) (g : Game)
        (t1 x1 y1 t2 x2 y2 : float) :
  (t1 - last_shoot_time g <? 0.3)%float = false ->
  (t2 - t1 <? 0.3)%float = true ->
  let g1 := shoot M t1 x1 y1 g in
  shoot_effects g1 =
    shoot_effects g ++
    [mkShootEffect (x1 / 1000 * 480) (y1 / 1000 * 270) 3 20 true 0.3 0] /\
  last_shoot_time g1 = t1 /\
  shoot M t2 x2 y2 g1 = g1 /\
  (forall g' t x y,
      (t - last_shoot_time g' <? 0.3)%float = true ->
      shoot M t x y g' = g').
Proof.
  intros H1 H2 g1.
  assert (Ht : last_shoot_time g1 = t1)
    by (subst g1; rewrite (shoot_accepted M _ _ _ _ H1); reflexivity).
  split.
  { subst g1. rewrite (shoot_accepted M _ _ _ _ H1). cbv zeta.
    cbn [shoot_effects]. unfold ShootEffect_init.
    destruct (virtual_point x1 y1) as [-> ->]. reflexivity. }
  split; [exact Ht|].
  split; [apply shoot_rejected; rewrite Ht; exact H2|].
  intros g' t x y H. apply shoot_rejected, H.
Qed.

(** Two calls 0.1 s apart on a fresh session leave one effect, at the
    virtual point (144, 81) of the first call's position (300, 300); a third
    call 0.4 s after the first is accepted again. *)
Lemma shoot_cooldown_gate_witness :
  (100 - last_shoot_time Game_init <? 0.3)%float = false /\
  (100.1 - 100 <? 0.3)%float = true /\
  shoot Example.lib 100.1 500 500 (shoot Example.lib 100 300 300 Game_init)
  = shoot Example.lib 100 300 300 Game_init /\
  shoot_effects
    (shoot Example.lib 100.1 500 500 (shoot Example.lib 100 300 300 Game_init))
  = [mkShootEffect 144 81 3 20 true 0.3 0] /\
  map (fun e => (e_x e, e_y e))
      (shoot_effects
         (shoot Example.lib 100.4 500 500
                (shoot Example.lib 100.1 500 500
                       (shoot Example.lib 100 300 300 Game_init))))
  = [(144%float, 81%float); (240%float, 135%float)].
Proof.
  pose proof (shoot_cooldown_gate Example.lib Game_init 100 300 300 100.1 500 500
                                  eq_refl eq_refl) as (He & _ & Hsame & _).
  split; [reflexivity|]. split; [reflexivity|].
  split; [exact Hsame|].
  split; [rewrite Hsame, He; vm_compute; reflexivity|].
  rewrite Hsame. vm_compute. reflexivity.
Defined.

(** ** The end of the game (C7) *)

Lemma update_at_deadline (M : MathLib) (now : float) (d : SpawnDraw)
      (dt : float) (g : Game) :
  state g = RUN ->
  (Py.of_int GAME_DURATION <=? now - game_start_time g)%float = true ->
  update M now d dt g = with_state RESULT g.
Proof. intros Hs Hd. unfold update. rewrite Hs, Hd. reflexivity. Qed.

Lemma update_idle_run (M : MathLib) (t0 now : float) (d : SpawnDraw)
      (dt : float) (g : Game) :
  idle_run t0 g -> idle_run t0 (update M now d dt g).
Proof.
  intros (Hs & Hp & Ht & Hst). unfold update, idle_run.
  destruct (state g) eqn:Hg; [congruence | | repeat split; auto; congruence].
  destruct (PrimFloat.leb _ _); [repeat split; auto; discriminate|].
  destruct (PrimFloat.leb _ _);
    cbn [score balloons_popped game_start_time state spawn_balloon with_balloons];
    rewrite ?Hg; repeat split; auto; discriminate.
Qed.

Lemma run_updates_idle_run (M : MathLib) (t0 : float) :
  forall ups g, idle_run t0 g -> idle_run t0 (run_updates M ups g).
Proof.
  unfold run_updates.
  induction ups as [| [[now d] dt] rest IH]; intros g Hg; cbn [fold_left].
  - exact Hg.
  - apply IH, update_idle_run, Hg.
Qed.

(** C7: an update in RUN whose elapsed time, the clock reading minus the
    start time, is at least the 30 s duration sets the state to RESULT and
    does nothing else: balloons, effects, score, popped counter and timers
    are those of before. After a start, any number of updates and no shot,
    an update whose clock reading is at least 30 s past the start time leaves
    the session in RESULT with score 0, popped 0 and a ticket value of
    -90. *)
Theorem update_deadline (M : MathLib) (now : float) (d : SpawnDraw)
        (dt : float) :
  (forall g,
      state g = RUN ->
      (Py.of_int GAME_DURATION <=? now - game_start_time g)%float = true ->
      update M now d dt g = with_state RESULT g) /\
  (forall g0 t0 t0' ups,
      (Py.of_int GAME_DURATION <=? now - t0)%float = true ->
      let g := update M now d dt (run_updates M ups (start_game t0 t0' g0)) in
      state g = RESULT /\ score g = 0 /\ balloons_popped g = 0 /\
      calculate_time_tickets g = -90).
Proof.
  split; [intros g; apply update_at_deadline|].
  intros g0 t0 t0' ups Hd g.
  assert (Hrun : idle_run t0 (run_updates M ups (start_game t0 t0' g0))).
  { apply run_updates_idle_run. repeat split; discriminate. }
  assert (Hg : idle_run t0 g) by (apply update_idle_run, Hrun).
  destruct Hrun as (_ & _ & Ht & Hst).
  destruct Hg as (Hs & Hp & _ & _).
  assert (HR : state g = RESULT).
  { subst g. destruct (state (run_updates M ups (start_game t0 t0' g0))) eqn:E.
    - congruence.
    - rewrite update_at_deadline; [reflexivity | exact E | rewrite Ht; exact Hd].
    - unfold update. rewrite E. exact E. }
  repeat split; auto.
  unfold calculate_time_tickets. rewrite Hp. reflexivity.
Qed.

(** A session started at clock 1000 and updated at clock 1030. *)
Lemma update_deadline_witness :
  state (start_game 1000 1000 Game_init) = RUN /\
  (Py.of_int GAME_DURATION <=? 1030 - 1000)%float = true /\
  update Example.lib 1030 Example.some_draw 0.1 (start_game 1000 1000 Game_init)
  = with_state RESULT (start_game 1000 1000 Game_init) /\
  calculate_time_tickets
    (update Example.lib 1030 Example.some_draw 0.1
            (start_game 1000 1000 Game_init)) = -90.
Proof.
  pose proof (update_deadline Example.lib 1030 Example.some_draw 0.1)
    as [Hstep Hrun].
  split; [reflexivity|]. split; [reflexivity|].
  split; [exact (Hstep (start_game 1000 1000 Game_init) eq_refl eq_refl)|].
  exact (proj2 (proj2 (proj2 (Hrun Game_init 1000%float 1000%float [] eq_refl)))).
Defined.

(** ** The gesture classifier (C8) *)

Lemma _detect_gun_gesture_shape (M : MathLib) (hand : Hand) r :
  _detect_gun_gesture M hand = Some r ->
  exists p, r = (Some p, false, None) \/ r = (None, true, Some p).
Proof.
  unfold _detect_gun_gesture.
  repeat match goal with
         | |- context [match ?x with Some _ => _ | None => _ end] =>
             destruct x; [|discriminate]
         end.
  destruct (_ && _); intros [= <-]; eauto.
Qed.

Lemma detect_shape (M : MathLib) (hands : list Hand) (d : Detection) :
  detect M hands = Some d ->
  (hands = [] /\ d = no_gesture) \/
  (exists p, d = verdict_shoot p) \/ (exists p, d = verdict_aiming p).
Proof.
  destruct hands as [| hand rest]; cbn [detect].
  - intros [= <-]. auto.
  - destruct (_detect_gun_gesture M hand) as [r|] eqn:Hr; [|discriminate].
    destruct (_detect_gun_gesture_shape M hand r Hr) as [p [-> | ->]];
      cbn [Py.truthy]; intros [= <-]; right;
      [left | right]; exists p; reflexivity.
Qed.

(** C8: on a frame with a hand (21 landmarks, index tip with finite
    coordinates) the classifier returns shoot, at the index-tip position
    scaled by 1000, exactly when the strict-gun condition holds and the
    wrist-to-index-tip angle lies in [225, 315]; in every other case it
    returns aiming at that position. The verdict is never both shoot and
    aiming, and with a hand it is never idle; with no hand it is idle. *)
Theorem detect_verdict (M : MathLib) (hand : Hand) (rest : list Hand)
        (px py : Z) :
  length hand = 21%nat ->
  Py.to_int (lm_x (lm hand 8) * 1000)%float = Some px ->
  Py.to_int (lm_y (lm hand 8) * 1000)%float = Some py ->
  exists d,
    detect M (hand :: rest) = Some d /\
    (heart_detected d = true <-> strict_gun hand = true /\ points_up M hand = true) /\
    (heart_detected d = true -> d = verdict_shoot (px, py)) /\
    (heart_detected d = false -> d = verdict_aiming (px, py)) /\
    heart_detected d = negb (det_is_aiming d) /\
    detect M [] = Some no_gesture.
Proof.
  intros Hlen Hx Hy.
  do 21 (destruct hand as [| ? hand]; [discriminate|]).
  destruct hand; [|discriminate]. clear Hlen.
  unfold lm in Hx, Hy. cbn [nth] in Hx, Hy.
  unfold strict_gun, points_up, extended, lm. cbn [nth].
  cbn [detect]. unfold _detect_gun_gesture, _is_finger_extended,
    INDEX_TIP, INDEX_PIP, MIDDLE_TIP, MIDDLE_PIP, RING_TIP, RING_PIP,
    PINKY_TIP, PINKY_PIP, WRIST.
  cbn [nth_error]. rewrite Hx, Hy. unfold angle_degrees. cbv zeta.
  set (a := if (_ <? 0)%float then _ else _).
  set (e1 := (_ <? _)%float). set (e2 := (_ <? _)%float).
  set (e3 := (_ <? _)%float). set (e4 := (_ <? _)%float).
  destruct ((225 <=? a)%float), ((a <=? 315)%float), e1, e2, e3, e4;
    cbn [andb negb Py.truthy];
    eexists; (split; [reflexivity|]); cbn [heart_detected det_is_aiming];
    repeat split; intros; try discriminate; try reflexivity;
    repeat match goal with H : _ /\ _ |- _ => destruct H end;
    try discriminate.
Qed.

(** A gun pointing up with the index tip at (0.5, 0.4) is a shot at
    (500, 400). A strict gun pointing to the right, and a level hand whose
    index is not extended, are aiming at the scaled tip position. *)
Lemma detect_verdict_witness :
  length (Example.hand_up 0.5 0.4) = 21%nat /\
  detect Example.lib [Example.hand_up 0.5 0.4]
  = Some (mkDetection true (Some (500, 400)) false None) /\
  strict_gun (Example.hand_up 0.5 0.4) = true /\
  points_up Example.lib (Example.hand_up 0.5 0.4) = true /\
  detect Example.lib [Example.hand_side]
  = Some (mkDetection false None true (Some (500, 420))) /\
  strict_gun Example.hand_side = true /\
  points_up Example.lib Example.hand_side = false /\
  detect Example.lib [Example.hand_level 0.5 0.4]
  = Some (mkDetection false None true (Some (500, 400))) /\
  strict_gun (Example.hand_level 0.5 0.4) = false /\
  detect Example.lib [] = Some (mkDetection false None false None).
Proof.
  destruct (detect_verdict Example.lib (Example.hand_up 0.5 0.4) [] 500 400
                           eq_refl eq_refl eq_refl)
    as (d & Hd & Hiff & Hshoot & _ & _ & Hidle).
  assert (Hgun : strict_gun (Example.hand_up 0.5 0.4) = true)
    by (vm_compute; reflexivity).
  assert (Hup : points_up Example.lib (Example.hand_up 0.5 0.4) = true)
    by (vm_compute; reflexivity).
  split; [reflexivity|].
  split; [rewrite Hd, (Hshoot (proj2 Hiff (conj Hgun Hup))); reflexivity|].
  split; [exact Hgun|]. split; [exact Hup|].
  split; [vm_compute; reflexivity|].
  split; [vm_compute; reflexivity|].
  split; [vm_compute; reflexivity|].
  split; [vm_compute; reflexivity|].
  split; [vm_compute; reflexivity|].
  exact Hidle.
Defined.

(** ** The main loop: rising edge and remembered aim (C5, C6, C10) *)

Lemma record_aim_heart (d : Detection) (lp : Loop) (g : Game) :
  last_heart_state (fst (record_aim d (lp, g))) = last_heart_state lp.
Proof.
  unfold record_aim. destruct (state_in_ready_run g); [|reflexivity].
  destruct (_ && _); reflexivity.
Qed.

Lemma record_aim_state (d : Detection) (lp : Loop) (g : Game) :
  state (snd (record_aim d (lp, g))) = state g.
Proof.
  unfold record_aim. destruct (state_in_ready_run g); [|reflexivity].
  destruct (_ && _); reflexivity.
Qed.

Lemma record_aim_aim (d : Detection) (lp : Loop) (g : Game) :
  last_aiming_position (fst (record_aim d (lp, g))) =
  match (match state g with RESULT => None | _ => aim_of d end) with
  | Some p => Some p
  | None => last_aiming_position lp
  end.
Proof.
  unfold record_aim, state_in_ready_run, aim_of.
  destruct (state g), (det_is_aiming d), (det_aiming_position d);
    reflexivity.
Qed.

Lemma record_aim_shot (M : MathLib) (hands : list Hand) (d : Detection)
      (lp : Loop) (g : Game) :
  detect M hands = Some d -> heart_detected d = true ->
  last_aiming_position (fst (record_aim d (lp, g))) = last_aiming_position lp.
Proof.
  intros Hd Hh. rewrite record_aim_aim.
  destruct (detect_shape M hands d Hd) as [[_ ->] | [[p ->] | [p ->]]];
    try discriminate.
  unfold aim_of. destruct (state g); reflexivity.
Qed.

Lemma main_iteration_loop (M : MathLib) (tk : Tick) (lp : Loop) (g : Game)
      (st' : Loop * Game) :
  main_iteration M tk (lp, g) = Some st' ->
  match tick_frame tk with
  | None =>
      last_heart_state (fst st') = last_heart_state lp /\
      last_aiming_position (fst st') = last_aiming_position lp
  | Some hands =>
      exists d, detect M hands = Some d /\
                last_heart_state (fst st') = heart_detected d /\
                last_aiming_position (fst st') =
                last_aiming_position (fst (record_aim d (lp, g)))
  end.
Proof.
  unfold main_iteration. destruct (tick_frame tk) as [hands|].
  - destruct (detect M hands) as [d|]; [|discriminate].
    unfold gesture_step.
    destruct (record_aim d _) as [lp1 g1] eqn:Hrec.
    intros [= <-]. exists d. split; [reflexivity|]. split; [reflexivity|].
    cbn [fst last_aiming_position].
    change lp1 with (fst (lp1, g1)). rewrite <- Hrec.
    rewrite !record_aim_aim. reflexivity.
  - intros [= <-]. split; reflexivity.
Qed.

Lemma main_log_triggers (M : MathLib) :
  forall ticks st,
    map obs_triggered (main_log M ticks st) =
    edges (last_heart_state (fst st))
          (map (fun o => heart_detected (obs_detection o))
               (main_log M ticks st)).
Proof.
  induction ticks as [| tk rest IH]; intros [lp g]; cbn [main_log].
  - reflexivity.
  - cbn [snd]. destruct (running g); [|reflexivity].
    destruct (main_iteration M tk (lp, g)) as [st'|] eqn:Hit; [|reflexivity].
    apply main_iteration_loop in Hit. unfold frame_obs.
    destruct (tick_frame tk) as [hands|].
    + destruct Hit as (d & Hd & Hh & _). rewrite Hd.
      cbn [app map edges]. rewrite IH, Hh. f_equal.
      unfold observe, triggered. cbn [obs_triggered obs_detection fst].
      rewrite record_aim_heart. reflexivity.
    + destruct Hit as [Hh _]. cbn [app]. rewrite IH, Hh. reflexivity.
Qed.

Lemma edges_rising_at :
  forall bs prev i, nth i (edges prev bs) false = true <-> rising_at prev bs i.
Proof.
  unfold rising_at.
  induction bs as [| b rest IH]; intros prev i.
  - destruct i; cbn; split; try discriminate; intros [H _]; discriminate.
  - destruct i as [| j]; cbn [edges nth].
    + destruct b, prev; cbn; split; auto; try discriminate;
        intros [? ?]; discriminate.
    + rewrite IH. destruct j; reflexivity.
Qed.

(** C5: over any run of the main loop that starts with the previous value
    false, the rising-edge condition holds at exactly those frames where the
    classifier reports a shot and the frame before did not; it never holds at
    two frames in a row; and for the reports false, true, true, false, true
    it holds at the second and the fifth frame only. *)
Theorem trigger_on_rising_edge (M : MathLib) (ticks : list Tick) (t0 : float)
        (g0 : Game) :
  let log := main_log M ticks (Loop_init t0, g0) in
  let bs := map (fun o => heart_detected (obs_detection o)) log in
  (forall i, nth i (map obs_triggered log) false = true <-> rising_at false bs i) /\
  (forall i, nth i (map obs_triggered log) false = true ->
             nth (S i) (map obs_triggered log) false = false) /\
  (bs = [false; true; true; false; true] ->
   map obs_triggered log = [false; true; false; false; true]).
Proof.
  intros log bs.
  assert (Hlog : map obs_triggered log = edges false bs)
    by (subst log bs; apply main_log_triggers).
  rewrite Hlog. split; [|split].
  - intros i. apply edges_rising_at.
  - intros i Hi. apply edges_rising_at in Hi. destruct Hi as [Hi _].
    destruct (nth (S i) (edges false bs) false) eqn:E; [|reflexivity].
    apply edges_rising_at in E. destruct E as [_ E]. cbn in E. congruence.
  - intros ->. reflexivity.
Qed.

(** The five frames level, up, up, level, up of a running game. *)
Lemma trigger_on_rising_edge_witness :
  map (fun o => heart_detected (obs_detection o))
      (main_log Example.lib Example.held_gesture_run
                (Loop_init 0, start_game 0.5 0.5 Game_init))
  = [false; true; true; false; true] /\
  map obs_triggered
      (main_log Example.lib Example.held_gesture_run
                (Loop_init 0, start_game 0.5 0.5 Game_init))
  = [false; true; false; false; true].
Proof.
  assert (H : map (fun o => heart_detected (obs_detection o))
                  (main_log Example.lib Example.held_gesture_run
                            (Loop_init 0, start_game 0.5 0.5 Game_init))
              = [false; true; true; false; true])
    by (vm_compute; reflexivity).
  split; [exact H|].
  exact (proj2 (proj2 (trigger_on_rising_edge
                         Example.lib Example.held_gesture_run 0
                         (start_game 0.5 0.5 Game_init))) H).
Defined.

Lemma main_log_requests (M : MathLib) :
  forall ticks st i o,
    nth_error (main_log M ticks st) i = Some o ->
    obs_request o =
    if obs_triggered o && is_run (obs_state o) then
      match last_aim_recorded (firstn i (main_log M ticks st)) with
      | Some p => Some p
      | None => last_aiming_position (fst st)
      end
    else None.
Proof.
  induction ticks as [| tk rest IH]; intros [lp g] i o; cbn [main_log].
  - destruct i; discriminate.
  - cbn [snd]. destruct (running g); [|destruct i; discriminate].
    destruct (main_iteration M tk (lp, g)) as [st'|] eqn:Hit;
      [|destruct i; discriminate].
    apply main_iteration_loop in Hit. unfold frame_obs.
    destruct (tick_frame tk) as [hands|].
    + destruct Hit as (d & Hd & _ & Ha). rewrite Hd. cbn [app fst].
      destruct i as [| j]; cbn [nth_error firstn].
      * intros [= <-]. unfold observe, shoot_request.
        cbn [obs_request obs_triggered obs_state snd].
        rewrite record_aim_state.
        destruct (triggered d (fst (record_aim d (lp, g)))) eqn:Htr;
          [|reflexivity].
        destruct (state g); cbn [andb is_run]; try reflexivity.
        apply (record_aim_shot M hands d lp g Hd).
        unfold triggered in Htr. apply andb_prop in Htr. apply Htr.
      * intros Hj. rewrite (IH st' j o Hj).
        destruct (_ && _); [|reflexivity].
        unfold last_aim_recorded. cbn [latest].
        destruct (latest recorded_aim _); [reflexivity|].
        rewrite Ha, record_aim_aim. reflexivity.
    + destruct Hit as [_ Ha]. cbn [app fst]. intros Hi.
      rewrite (IH st' i o Hi), Ha. reflexivity.
Qed.

(** C6, as amended: at every frame of a run of the main loop, the
    [game.shoot] call made on a rising edge in RUN gets the position of the
    most recent earlier frame whose verdict was aiming while the game was in
    READY or RUN (aiming verdicts seen in RESULT are not recorded); no call is
    made when there is none, or outside a rising edge in RUN. The current
    frame's reported shoot position plays no part in the step, and the
    position requested is the one [shoot] is called with. *)
Theorem shot_at_recorded_aim (M : MathLib) (ticks : list Tick) (t0 : float)
        (g0 : Game) (i : nat) (o : Observation) :
  nth_error (main_log M ticks (Loop_init t0, g0)) i = Some o ->
  obs_request o =
    (if obs_triggered o && is_run (obs_state o)
     then last_aim_recorded (firstn i (main_log M ticks (Loop_init t0, g0)))
     else None) /\
  (forall q t st,
      gesture_step M (with_heart_position q (obs_detection o)) t st =
      gesture_step M (obs_detection o) t st) /\
  (forall d t st,
      snd (gesture_step M d t st) =
      match shoot_request d (fst (record_aim d st)) (snd (record_aim d st)) with
      | Some (x, y) =>
          shoot M t (Py.of_int x) (Py.of_int y) (snd (record_aim d st))
      | None => snd (record_aim d st)
      end).
Proof.
  intros Hi. split; [|split].
  - rewrite (main_log_requests M ticks _ i o Hi). cbn [fst Loop_init
      last_aiming_position].
    destruct (_ && _); [|reflexivity].
    destruct (last_aim_recorded _); reflexivity.
  - intros q t [lp g]. reflexivity.
  - intros d t st. unfold gesture_step.
    destruct (record_aim d st) as [lp1 g1]. cbn [fst snd].
    destruct (shoot_request d lp1 g1) as [[x y]|]; reflexivity.
Qed.

(** The replayed session: the shot of the fifth frame goes to (250, 500),
    the position aimed at before the first game started. *)
Lemma shot_at_recorded_aim_witness :
  nth_error Example.replay_log 4
  = Some (mkObservation RUN (verdict_shoot (600, 200)) true (Some (250, 500))) /\
  last_aim_recorded (firstn 4 Example.replay_log) = Some (250, 500).
Proof.
  assert (H : nth_error Example.replay_log 4
              = Some (mkObservation RUN (verdict_shoot (600, 200)) true
                                    (Some (250, 500))))
    by (vm_compute; reflexivity).
  split; [exact H|].
  pose proof (proj1 (shot_at_recorded_aim Example.lib Example.replay_run 0
                                          Game_init 4 _ H)) as Hreq.
  cbn [obs_request obs_triggered obs_state is_run andb] in Hreq.
  symmetry. exact Hreq.
Defined.

(** C6, as stated, fails on the replayed session: the most recent aiming
    verdict before the shot was at (700, 300), seen on the result screen, and
    the shot goes to (250, 500); its effect appears at the virtual point
    (120, 135). *)
Lemma shot_not_at_last_aim_verdict :
  map (fun o => aim_of (obs_detection o)) Example.replay_log
  = [Some (250, 500); Some (250, 500); Some (700, 300); None; None] /\
  map obs_state Example.replay_log = [READY; RUN; RESULT; READY; RUN] /\
  map obs_request Example.replay_log
  = [None; None; None; None; Some (250, 500)] /\
  last_aim_verdict (firstn 4 Example.replay_log) = Some (700, 300) /\
  nth 4 (map obs_request Example.replay_log) None
  <> last_aim_verdict (firstn 4 Example.replay_log) /\
  option_map (fun st => map (fun e => (e_x e, e_y e)) (shoot_effects (snd st)))
             (main_loop Example.lib Example.replay_run (Loop_init 0, Game_init))
  = Some [(120%float, 135%float)].
Proof.
  repeat split; try (vm_compute; reflexivity).
  vm_compute. discriminate.
Qed.

(** C10: when the rising-edge condition holds on a frame and no aiming
    position has been recorded yet, the step makes no [game.shoot] call: the
    effects, the score, the popped counter, the time of the last shot and the
    balloons are those of before, and the remembered position is still
    empty. *)
Theorem no_aim_no_shot (M : MathLib) (hands : list Hand) (d : Detection)
        (t : float) (lp : Loop) (g : Game) :
  detect M hands = Some d ->
  triggered d lp = true ->
  last_aiming_position lp = None ->
  shoot_request d (fst (record_aim d (lp, g))) (snd (record_aim d (lp, g)))
  = None /\
  shoot_effects (snd (gesture_step M d t (lp, g))) = shoot_effects g /\
  score (snd (gesture_step M d t (lp, g))) = score g /\
  balloons_popped (snd (gesture_step M d t (lp, g))) = balloons_popped g /\
  last_shoot_time (snd (gesture_step M d t (lp, g))) = last_shoot_time g /\
  balloons (snd (gesture_step M d t (lp, g))) = balloons g /\
  last_aiming_position (fst (gesture_step M d t (lp, g))) = None.
Proof.
  intros Hd Htr Hnone.
  assert (Hh : heart_detected d = true)
    by (unfold triggered in Htr; apply andb_prop in Htr; apply Htr).
  destruct (detect_shape M hands d Hd) as [[_ ->] | [[p ->] | [p ->]]];
    try discriminate.
  unfold gesture_step, shoot_request, record_aim, state_in_ready_run.
  destruct (state g) eqn:Hs; cbn [verdict_shoot det_is_aiming andb fst snd];
    cbn [set_aiming state]; rewrite ?Hs, ?Htr, ?Hnone; cbn;
    repeat split; assumption.
Qed.

(** The gun points up on the very first frame of a running game. *)
Lemma no_aim_no_shot_witness :
  detect Example.lib [Example.hand_up 0.6 0.2] = Some (verdict_shoot (600, 200)) /\
  triggered (verdict_shoot (600, 200)) (Loop_init 0) = true /\
  shoot_effects
    (snd (gesture_step Example.lib (verdict_shoot (600, 200)) 5
                       (Loop_init 0, start_game 1 1 Game_init))) = [] /\
  last_shoot_time
    (snd (gesture_step Example.lib (verdict_shoot (600, 200)) 5
                       (Loop_init 0, start_game 1 1 Game_init))) = 0%float.
Proof.
  assert (Hd : detect Example.lib [Example.hand_up 0.6 0.2]
               = Some (verdict_shoot (600, 200))) by (vm_compute; reflexivity).
  pose proof (no_aim_no_shot Example.lib _ _ 5 (Loop_init 0)
                             (start_game 1 1 Game_init) Hd eq_refl eq_refl)
    as (_ & He & _ & _ & Ht & _).
  split; [exact Hd|]. split; [reflexivity|].
  split; [exact He | exact Ht].
Defined.

(** * Further properties of the code *)

(** ** The session's life cycle *)

Lemma shoot_frame (M : MathLib) (t x y : float) (g : Game) :
  state (shoot M t x y g) = state g /\
  game_start_time (shoot M t x y g) = game_start_time g /\
  last_balloon_spawn (shoot M t x y g) = last_balloon_spawn g /\
  running (shoot M t x y g) = running g /\
  is_aiming (shoot M t x y g) = is_aiming g /\
  aiming_position (shoot M t x y g) = aiming_position g.
Proof.
  unfold shoot. destruct (PrimFloat.ltb _ _); [repeat split|].
  cbv zeta. destruct (hit_scan _ _ _ _ _ _) as [[bs sc] popped].
  repeat split.
Qed.

Lemma update_state (M : MathLib) (now : float) (d : SpawnDraw) (dt : float)
      (g : Game) :
  state (update M now d dt g) = state g \/
  (state g = RUN /\ state (update M now d dt g) = RESULT /\
   (Py.of_int GAME_DURATION <=? now - game_start_time g)%float = true).
Proof.
  unfold update. destruct (state g) eqn:Hs; auto.
  destruct (Py.of_int GAME_DURATION <=? now - game_start_time g)%float eqn:Hd.
  - right. auto.
  - left.
    destruct (BALLOON_SPAWN_INTERVAL <=? now - last_balloon_spawn g)%float;
      cbn [state spawn_balloon with_balloons]; exact Hs.
Qed.

Lemma gesture_step_state (M : MathLib) (d : Detection) (t : float)
      (lp : Loop) (g : Game) :
  state (snd (gesture_step M d t (lp, g))) = state g.
Proof.
  unfold gesture_step.
  pose proof (record_aim_state d lp g) as Hs.
  destruct (record_aim d (lp, g)) as [lp1 g1]. cbn [snd] in *.
  destruct (shoot_request d lp1 g1) as [[x y]|]; cbn [snd]; [|exact Hs].
  rewrite (proj1 (shoot_frame M t _ _ g1)). exact Hs.
Qed.

(** X1: the state of a session moves only along READY, RUN, RESULT, READY:
    [update] can only take RUN to RESULT, and only at the deadline; an event
    can only take READY to RUN (SPACE) or RESULT to READY (R); a shot and
    the handling of a gesture never change the state. *)
Theorem state_moves_along_cycle (M : MathLib) :
  (forall now d dt g,
      state (update M now d dt g) = state g \/
      (state g = RUN /\ state (update M now d dt g) = RESULT /\
       (Py.of_int GAME_DURATION <=? now - game_start_time g)%float = true)) /\
  (forall g event t1 t2,
      state (event_step M g (event, t1, t2)) = state g \/
      (state g = READY /\ event = KEYDOWN K_SPACE /\
       state (event_step M g (event, t1, t2)) = RUN) \/
      (state g = RESULT /\ event = KEYDOWN K_r /\
       state (event_step M g (event, t1, t2)) = READY)) /\
  (forall t x y g, state (shoot M t x y g) = state g) /\
  (forall d t lp g, state (snd (gesture_step M d t (lp, g))) = state g).
Proof.
  split; [intros; apply update_state|].
  split; [|split; [intros; apply shoot_frame | intros; apply gesture_step_state]].
  intros g event t1 t2. unfold event_step, handle_event.
  destruct event as [| key |]; [left; reflexivity | | left; reflexivity].
  destruct key, (state g) eqn:Hs; cbn [state with_running with_state start_game];
    rewrite ?Hs; auto;
    try (left; rewrite (proj1 (shoot_frame M _ _ _ g)); exact Hs).
Qed.

(** X2: a key other than ESC and Q that is not the one the current state acts
    on (SPACE in READY, M in RUN, R in RESULT) leaves the session exactly as
    it is. *)
Theorem key_outside_state_ignored (M : MathLib) (g : Game) (k : Key)
        (t1 t2 : float) :
  acts_on (state g) k = false -> k <> K_ESCAPE -> k <> K_q ->
  event_step M g (KEYDOWN k, t1, t2) = g.
Proof.
  intros Hacts Hesc Hq. unfold event_step, handle_event.
  destruct k, (state g); try discriminate; try reflexivity; congruence.
Qed.

(** SPACE during a game does not restart it. *)
Lemma key_outside_state_ignored_witness :
  acts_on (state Example.after_hit) K_SPACE = false /\
  event_step Example.lib Example.after_hit (KEYDOWN K_SPACE, 11%float, 11%float)
  = Example.after_hit.
Proof.
  split; [reflexivity|].
  apply (key_outside_state_ignored Example.lib Example.after_hit K_SPACE);
    [reflexivity | discriminate | discriminate].
Defined.

Lemma event_step_running (M : MathLib) (g : Game) (ev : Event * float * float) :
  running (event_step M g ev) =
  if quits (fst (fst ev)) then false else running g.
Proof.
  destruct ev as [[event t1] t2]. unfold event_step, handle_event. cbn [fst].
  destruct event as [| key |]; try reflexivity.
  destruct key, (state g); try reflexivity.
  cbn [quits]. apply shoot_frame.
Qed.

Lemma events_running (M : MathLib) :
  forall evs g,
    running (fold_left (event_step M) evs g) =
    if existsb (fun ev => quits (fst (fst ev))) evs then false else running g.
Proof.
  induction evs as [| ev rest IH]; intros g; cbn [fold_left existsb].
  - reflexivity.
  - rewrite IH, event_step_running.
    destruct (quits (fst (fst ev))); cbn [orb]; [|reflexivity].
    destruct (existsb _ rest); reflexivity.
Qed.

Lemma update_running (M : MathLib) (now : float) (d : SpawnDraw) (dt : float)
      (g : Game) :
  running (update M now d dt g) = running g.
Proof.
  unfold update. destruct (state g); try reflexivity.
  destruct (PrimFloat.leb _ _); [reflexivity|].
  destruct (PrimFloat.leb _ _); reflexivity.
Qed.

Lemma gesture_step_running (M : MathLib) (d : Detection) (t : float)
      (lp : Loop) (g : Game) :
  running (snd (gesture_step M d t (lp, g))) = running g.
Proof.
  unfold gesture_step, record_aim.
  destruct (state_in_ready_run g); [destruct (_ && _)|];
    match goal with
    | |- context [shoot_request ?d ?l ?h] =>
        destruct (shoot_request d l h) as [[x y]|]
    end; cbn [snd]; rewrite ?(proj1 (proj2 (proj2 (proj2 (shoot_frame M _ _ _ _)))));
    reflexivity.
Qed.

Lemma main_iteration_running (M : MathLib) (tk : Tick) (st st' : Loop * Game) :
  main_iteration M tk st = Some st' ->
  running (snd st') =
  if existsb (fun ev => quits (fst (fst ev))) (tick_events tk) then false
  else running (snd st).
Proof.
  destruct st as [lp g]. unfold main_iteration.
  destruct (tick_frame tk) as [hands|].
  - destruct (detect M hands) as [d|]; [|discriminate].
    destruct (gesture_step M d _ _) as [lp1 g1] eqn:Hg.
    intros [= <-]. cbn [snd].
    rewrite update_running, events_running.
    change g1 with (snd (lp1, g1)). rewrite <- Hg, gesture_step_running.
    reflexivity.
  - intros [= <-]. cbn [snd]. rewrite update_running, events_running.
    reflexivity.
Qed.

(** X3: closing the window, ESC or Q ends the program after the iteration that
    sees it: that iteration is completed, the running flag is false after
    it, and no later iteration is executed. An iteration without such an
    event leaves the flag as it is. *)
Theorem quit_ends_the_loop (M : MathLib) (tk : Tick) (rest : list Tick)
        (st st' : Loop * Game) :
  running (snd st) = true ->
  main_iteration M tk st = Some st' ->
  (existsb (fun ev => quits (fst (fst ev))) (tick_events tk) = true ->
   running (snd st') = false /\ main_loop M (tk :: rest) st = Some st') /\
  (existsb (fun ev => quits (fst (fst ev))) (tick_events tk) = false ->
   running (snd st') = true /\
   main_loop M (tk :: rest) st = main_loop M rest st').
Proof.
  intros Hrun Hit.
  pose proof (main_iteration_running M tk st st' Hit) as Hr.
  rewrite Hrun in Hr.
  split; intros Hq; rewrite Hq in Hr; (split; [exact Hr|]);
    cbn [main_loop]; rewrite Hrun, Hit.
  - destruct rest; cbn [main_loop]; [reflexivity|]. rewrite Hr. reflexivity.
  - reflexivity.
Qed.

(** The window is closed in the first of three iterations. *)
Lemma quit_ends_the_loop_witness :
  running (snd (Loop_init 0, Game_init)) = true /\
  main_loop Example.lib
            [Example.quit_tick; Example.frame_tick 3 (Example.hand_up 0.5 0.5);
             Example.frame_tick 4 (Example.hand_up 0.5 0.5)]
            (Loop_init 0, Game_init)
  = main_iteration Example.lib Example.quit_tick (Loop_init 0, Game_init).
Proof.
  split; [reflexivity|].
  destruct (main_iteration Example.lib Example.quit_tick (Loop_init 0, Game_init))
    as [st'|] eqn:Hit; [|vm_compute in Hit; discriminate].
  exact (proj2 (proj1 (quit_ends_the_loop Example.lib Example.quit_tick _
                                          (Loop_init 0, Game_init) st'
                                          eq_refl Hit) eq_refl)).
Defined.

(** ** What an update keeps and what it prunes *)

(** X4: [update] never touches the score, the popped counter, the time of the
    last shot, the start time, the running flag or the aiming state, and
    outside RUN it changes nothing at all. *)
Theorem update_keeps_counters (M : MathLib) (now : float) (d : SpawnDraw)
        (dt : float) (g : Game) :
  score (update M now d dt g) = score g /\
  balloons_popped (update M now d dt g) = balloons_popped g /\
  last_shoot_time (update M now d dt g) = last_shoot_time g /\
  game_start_time (update M now d dt g) = game_start_time g /\
  running (update M now d dt g) = running g /\
  is_aiming (update M now d dt g) = is_aiming g /\
  aiming_position (update M now d dt g) = aiming_position g /\
  (state g <> RUN -> update M now d dt g = g).
Proof.
  unfold update. destruct (state g) eqn:Hs;
    try (repeat split; intros; congruence).
  destruct (Py.of_int GAME_DURATION <=? now - game_start_time g)%float;
    [repeat split; intros; congruence|].
  destruct (BALLOON_SPAWN_INTERVAL <=? now - last_balloon_spawn g)%float;
    repeat split; intros; congruence.
Qed.

(** A key pressed outside RUN does not disturb a later update. *)
Lemma update_keeps_counters_witness :
  state Game_init <> RUN /\
  update Example.lib 3 Example.some_draw 0.1 Game_init = Game_init.
Proof.
  assert (H : state Game_init <> RUN) by discriminate.
  split; [exact H|].
  exact (proj2 (proj2 (proj2 (proj2 (proj2 (proj2 (proj2
          (update_keeps_counters Example.lib 3 Example.some_draw 0.1
                                 Game_init))))))) H).
Defined.

(** X5: after an update in RUN before the deadline no dead balloon and no dead
    effect is left in the session: a balloon that was hit or has left the
    top, and an effect past its lifetime, are gone. *)
Theorem update_prunes_dead (M : MathLib) (now : float) (d : SpawnDraw)
        (dt : float) (g : Game) :
  state g = RUN ->
  (Py.of_int GAME_DURATION <=? now - game_start_time g)%float = false ->
  Forall (fun b => b_alive b = true) (balloons (update M now d dt g)) /\
  Forall (fun e => e_alive e = true) (shoot_effects (update M now d dt g)).
Proof.
  intros Hs Hd. unfold update. rewrite Hs, Hd. cbn [balloons shoot_effects].
  split; apply Forall_forall; intros x Hx; apply filter_In in Hx; apply Hx.
Qed.

(** The popped balloon and the effect of the shot, 0.4 s later. *)
Lemma update_prunes_dead_witness :
  state Example.after_hit = RUN /\
  map b_alive (balloons Example.after_hit) = [false] /\
  length (shoot_effects Example.after_hit) = 1%nat /\
  Forall (fun b => b_alive b = true)
         (balloons (update Example.lib 10.4 Example.some_draw 0.4
                           Example.after_hit)) /\
  Forall (fun e => e_alive e = true)
         (shoot_effects (update Example.lib 10.4 Example.some_draw 0.4
                                Example.after_hit)) /\
  balloons (update Example.lib 10.4 Example.some_draw 0.4 Example.after_hit) = [] /\
  shoot_effects (update Example.lib 10.4 Example.some_draw 0.4 Example.after_hit) = [].
Proof.
  pose proof (update_prunes_dead Example.lib 10.4 Example.some_draw 0.4
                                 Example.after_hit eq_refl eq_refl) as [Hb He].
  split; [reflexivity|]. split; [vm_compute; reflexivity|].
  split; [vm_compute; reflexivity|].
  split; [exact Hb|]. split; [exact He|].
  split.
  - destruct (balloons _) as [| b bs] eqn:E; [reflexivity|].
    vm_compute in E. discriminate.
  - destruct (shoot_effects _) as [| e es] eqn:E; [reflexivity|].
    vm_compute in E. discriminate.
Defined.

(** X6: an update adds at most one balloon, and none unless the spawn interval
    has passed; when it spawns in RUN before the deadline it restarts the
    spawn timer at its clock reading, and otherwise leaves the timer. *)
Theorem update_spawns_at_most_one (M : MathLib) (now : float) (d : SpawnDraw)
        (dt : float) (g : Game) :
  (length (balloons (update M now d dt g)) <= length (balloons g) + 1)%nat /\
  ((BALLOON_SPAWN_INTERVAL <=? now - last_balloon_spawn g)%float = false ->
   (length (balloons (update M now d dt g)) <= length (balloons g))%nat /\
   last_balloon_spawn (update M now d dt g) = last_balloon_spawn g) /\
  (state g = RUN ->
   (Py.of_int GAME_DURATION <=? now - game_start_time g)%float = false ->
   (BALLOON_SPAWN_INTERVAL <=? now - last_balloon_spawn g)%float = true ->
   last_balloon_spawn (update M now d dt g) = now).
Proof.
  assert (Hf : forall l : list Balloon,
             (length (filter b_alive (map (Balloon_update M dt) l))
              <= length l)%nat).
  { intros l. rewrite <- (length_map (Balloon_update M dt) l).
    apply filter_length_le. }
  unfold update. destruct (state g) eqn:Hs.
  - repeat split; intros; try congruence; lia.
  - destruct (Py.of_int GAME_DURATION <=? now - game_start_time g)%float.
    + cbn [balloons with_state last_balloon_spawn].
      repeat split; intros; try congruence; lia.
    + destruct (BALLOON_SPAWN_INTERVAL <=? now - last_balloon_spawn g)%float;
        cbn [balloons spawn_balloon with_balloons last_balloon_spawn].
      * split; [|split; [discriminate | reflexivity]].
        pose proof (Hf (balloons g ++ [Balloon_init
                          (Py.of_int (draw_x d))
                          (Py.of_int (VIRTUAL_HEIGHT + BALLOON_SIZE))
                          (draw_color d) (draw_speed d)
                          (draw_balloon_type (draw_val d))])) as H.
        rewrite length_app in H. cbn [length] in H. exact H.
      * pose proof (Hf (balloons g)).
        repeat split; intros; try congruence; lia.
  - repeat split; intros; try congruence; lia.
Qed.

(** An update 0.1 s after the last spawn, and one 0.8 s after it. *)
Lemma update_spawns_at_most_one_witness :
  length (balloons (update Example.lib 1.1 Example.some_draw 0.1
                           (start_game 1 1 Game_init))) = 0%nat /\
  length (balloons (update Example.lib 1.8 Example.some_draw 0.1
                           (start_game 1 1 Game_init))) = 1%nat /\
  last_balloon_spawn (update Example.lib 1.8 Example.some_draw 0.1
                             (start_game 1 1 Game_init)) = 1.8%float.
Proof.
  pose proof (update_spawns_at_most_one Example.lib 1.1 Example.some_draw 0.1
                (start_game 1 1 Game_init)) as (_ & Hno & _).
  pose proof (update_spawns_at_most_one Example.lib 1.8 Example.some_draw 0.1
                (start_game 1 1 Game_init)) as (_ & _ & Hyes).
  split; [|split].
  - destruct (Hno eq_refl) as [Hlen _]. cbn [length start_game balloons] in Hlen.
    lia.
  - vm_compute. reflexivity.
  - exact (Hyes eq_refl eq_refl eq_refl).
Defined.

(** ** What a shot keeps *)

Lemma hit_scan_conserves (M : MathLib) (vx vy : float) :
  forall bs sc popped,
    let r := hit_scan M bs vx vy sc popped in
    snd (fst r) + live_value (fst (fst r)) = sc + live_value bs /\
    map Balloon_kill (fst (fst r)) = map Balloon_kill bs /\
    popped <= snd r <= popped + 1.
Proof.
  induction bs as [| b rest IH]; intros sc popped; cbn [hit_scan].
  - cbn. repeat split; lia.
  - destruct (b_alive b && collides_with M b vx vy HIT_RADIUS) eqn:Hhit.
    + apply andb_prop in Hhit. destruct Hhit as [Ha _].
      cbn [fst snd live_value map Balloon_kill b_alive b_score_value].
      rewrite Ha. split; [lia|]. split; [reflexivity|].
      destruct (b_score_value b >? 0); lia.
    + specialize (IH sc popped). cbv zeta in IH.
      destruct (hit_scan M rest vx vy sc popped) as [[rest' sc'] popped'].
      cbn [fst snd live_value map] in *.
      destruct IH as (Hv & Hm & Hp). rewrite Hm.
      repeat split; lia.
Qed.

(** X7: a shot, accepted or not, never removes, adds or moves a balloon: the
    balloons after it are those of before up to their alive flags. The score
    plus the total value of the live balloons is the same before and after,
    and the popped counter stays or goes up by one. *)
Theorem shoot_conserves_value (M : MathLib) (t x y : float) (g : Game) :
  score (shoot M t x y g) + live_value (balloons (shoot M t x y g))
  = score g + live_value (balloons g) /\
  map Balloon_kill (balloons (shoot M t x y g)) = map Balloon_kill (balloons g) /\
  length (balloons (shoot M t x y g)) = length (balloons g) /\
  balloons_popped g <= balloons_popped (shoot M t x y g)
  <= balloons_popped g + 1.
Proof.
  assert (H : score (shoot M t x y g) + live_value (balloons (shoot M t x y g))
              = score g + live_value (balloons g) /\
              map Balloon_kill (balloons (shoot M t x y g))
              = map Balloon_kill (balloons g) /\
              balloons_popped g <= balloons_popped (shoot M t x y g)
              <= balloons_popped g + 1).
  { unfold shoot. destruct (PrimFloat.ltb _ _); [repeat split; lia|].
    cbv zeta.
    pose proof (hit_scan_conserves M (virtual_x x) (virtual_y y) (balloons g)
                                   (score g) (balloons_popped g)) as Hc.
    cbv zeta in Hc.
    destruct (hit_scan _ _ _ _ _ _) as [[bs sc] popped].
    cbn [fst snd score balloons balloons_popped] in *. exact Hc. }
  destruct H as (Hv & Hm & Hp). repeat split; try assumption; try lia.
  rewrite <- (length_map Balloon_kill), Hm. apply length_map.
Qed.

(** X8: the cooldown clock is not part of what a new game resets: after a shot
    accepted at t1, a shot within the cooldown of t1 is ignored even when a
    game was started in between. *)
Theorem cooldown_survives_restart (M : MathLib) (g : Game)
        (t1 x1 y1 a b t2 x2 y2 : float) :
  (t1 - last_shoot_time g <? SHOOT_COOLDOWN)%float = false ->
  (t2 - t1 <? SHOOT_COOLDOWN)%float = true ->
  shoot M t2 x2 y2 (start_game a b (shoot M t1 x1 y1 g))
  = start_game a b (shoot M t1 x1 y1 g).
Proof.
  intros H1 H2. apply shoot_rejected.
  cbn [start_game last_shoot_time].
  rewrite (shoot_accepted M _ _ _ _ H1). exact H2.
Qed.

(** A shot at clock 100, a new game at 100.1, a shot at 100.2. *)
Lemma cooldown_survives_restart_witness :
  (100 - last_shoot_time Game_init <? SHOOT_COOLDOWN)%float = false /\
  (100.2 - 100 <? SHOOT_COOLDOWN)%float = true /\
  shoot_effects
    (shoot Example.lib 100.2 500 500
           (start_game 100.1 100.1 (shoot Example.lib 100 500 500 Game_init)))
  = [].
Proof.
  split; [reflexivity|]. split; [reflexivity|].
  rewrite (cooldown_survives_restart Example.lib Game_init 100 500 500
             100.1 100.1 100.2 500 500 eq_refl eq_refl).
  reflexivity.
Defined.

(** ** Gestures and the session *)

(** X9: outside RUN a gesture never shoots: whatever the verdict and the edge,
    no [game.shoot] call is made, and score, popped counter, effects,
    balloons and the time of the last shot stay as they are. In RESULT the
    session is not touched at all and the remembered aiming position is
    kept. *)
Theorem gesture_outside_run (M : MathLib) (d : Detection) (t : float)
        (lp : Loop) (g : Game) :
  state g <> RUN ->
  shoot_request d (fst (record_aim d (lp, g))) (snd (record_aim d (lp, g)))
  = None /\
  score (snd (gesture_step M d t (lp, g))) = score g /\
  balloons_popped (snd (gesture_step M d t (lp, g))) = balloons_popped g /\
  shoot_effects (snd (gesture_step M d t (lp, g))) = shoot_effects g /\
  balloons (snd (gesture_step M d t (lp, g))) = balloons g /\
  last_shoot_time (snd (gesture_step M d t (lp, g))) = last_shoot_time g /\
  (state g = RESULT ->
   gesture_step M d t (lp, g)
   = (mkLoop (last_time lp) (heart_detected d) (last_aiming_position lp), g)).
Proof.
  intros Hs. unfold gesture_step, shoot_request, record_aim, state_in_ready_run.
  destruct (state g) eqn:E; [| congruence |].
  - destruct (det_is_aiming d && Py.truthy (det_aiming_position d));
      cbn [fst snd set_aiming state]; rewrite E;
      match goal with |- context [triggered ?a ?b] => destruct (triggered a b) end;
      cbn [snd score balloons_popped shoot_effects balloons last_shoot_time];
      repeat split; discriminate.
  - cbn [fst snd]. rewrite E. destruct (triggered d lp); repeat split.
Qed.

(** The gun points up on the start screen. *)
Lemma gesture_outside_run_witness :
  state Game_init <> RUN /\
  shoot_effects
    (snd (gesture_step Example.lib (verdict_shoot (600, 200)) 5
                       (mkLoop 0 false (Some (250, 500)), Game_init))) = [].
Proof.
  assert (H : state Game_init <> RUN) by discriminate.
  split; [exact H|].
  pose proof (gesture_outside_run Example.lib (verdict_shoot (600, 200)) 5
                (mkLoop 0 false (Some (250, 500))) Game_init H)
    as (_ & _ & _ & He & _).
  exact He.
Defined.

(** X10: in READY and RUN the aiming state the game draws its reticle from is
    the current frame's verdict: its aiming flag and position, also on a
    frame that shoots, where both are cleared. *)
Theorem gesture_sets_reticle (M : MathLib) (d : Detection) (t : float)
        (lp : Loop) (g : Game) :
  state g <> RESULT ->
  is_aiming (snd (gesture_step M d t (lp, g))) = det_is_aiming d /\
  aiming_position (snd (gesture_step M d t (lp, g))) = det_aiming_position d.
Proof.
  intros Hs. unfold gesture_step, record_aim, state_in_ready_run.
  destruct (state g) eqn:E; [| | congruence];
    destruct (det_is_aiming d && Py.truthy (det_aiming_position d));
    match goal with
    | |- context [shoot_request ?a ?b ?c] =>
        destruct (shoot_request a b c) as [[x y]|]
    end;
    cbn [snd];
    rewrite ?(proj1 (proj2 (proj2 (proj2 (proj2 (shoot_frame M _ _ _ _)))))),
            ?(proj2 (proj2 (proj2 (proj2 (proj2 (shoot_frame M _ _ _ _))))));
    split; reflexivity.
Qed.

(** The shot of a running game clears the reticle. *)
Lemma gesture_sets_reticle_witness :
  state (start_game 1 1 Game_init) <> RESULT /\
  aiming_position
    (snd (gesture_step Example.lib (verdict_shoot (600, 200)) 5
            (mkLoop 0 false (Some (250, 500)),
             set_aiming true (Some (250, 500)) (start_game 1 1 Game_init))))
  = None.
Proof.
  assert (H : state (set_aiming true (Some (250, 500))
                                (start_game 1 1 Game_init)) <> RESULT)
    by discriminate.
  split; [exact H|].
  exact (proj2 (gesture_sets_reticle Example.lib (verdict_shoot (600, 200)) 5
                  (mkLoop 0 false (Some (250, 500))) _ H)).
Defined.

Lemma record_aim_time (d : Detection) (lp : Loop) (g : Game) :
  last_time (fst (record_aim d (lp, g))) = last_time lp.
Proof.
  unfold record_aim. destruct (state_in_ready_run g); [|reflexivity].
  destruct (_ && _); reflexivity.
Qed.

Lemma gesture_step_time (M : MathLib) (d : Detection) (t : float)
      (lp : Loop) (g : Game) :
  last_time (fst (gesture_step M d t (lp, g))) = last_time lp.
Proof.
  unfold gesture_step. pose proof (record_aim_time d lp g) as Ht.
  destruct (record_aim d (lp, g)) as [lp0 g0]. exact Ht.
Qed.

(** X11: an iteration first lets the frame's gesture act on the session, then
    the events, and then calls [update] once, with the time since the
    previous iteration's clock reading as the time step or, when that is more
    than 0.1 s, with 0.1 s: the step is never more than 0.1 s. The loop
    remembers the iteration's own clock reading. *)
Theorem iteration_step_capped (M : MathLib) (tk : Tick) (lp : Loop) (g : Game)
        (st' : Loop * Game) :
  main_iteration M tk (lp, g) = Some st' ->
  exists g1 dt,
    match tick_frame tk with
    | Some hands =>
        exists d,
          detect M hands = Some d /\
          g1 = snd (gesture_step M d (tick_shoot_time tk)
                                 (mkLoop (tick_time tk) (last_heart_state lp)
                                         (last_aiming_position lp), g))
    | None => g1 = g
    end /\
    snd st' = update M (tick_update_time tk) (tick_draw tk) dt
                     (fold_left (event_step M) (tick_events tk) g1) /\
    ((0.1 <? tick_time tk - last_time lp)%float = true -> dt = 0.1%float) /\
    ((0.1 <? tick_time tk - last_time lp)%float = false ->
     dt = (tick_time tk - last_time lp)%float) /\
    (0.1 <? dt)%float = false /\
    last_time (fst st') = tick_time tk.
Proof.
  unfold main_iteration.
  assert (Hdt : forall x : float,
             ((0.1 <? x)%float = true ->
              (if (0.1 <? x)%float then 0.1%float else x) = 0.1%float) /\
             ((0.1 <? x)%float = false ->
              (if (0.1 <? x)%float then 0.1%float else x) = x) /\
             (0.1 <? (if (0.1 <? x)%float then 0.1%float else x))%float = false).
  { intros x. destruct (0.1 <? x)%float eqn:E; repeat split; auto;
      discriminate. }
  destruct (Hdt (tick_time tk - last_time lp)%float) as (Hcap & Hraw & Hle).
  cbv zeta.
  set (dt := if (0.1 <? tick_time tk - last_time lp)%float
             then 0.1%float else (tick_time tk - last_time lp)%float) in *.
  clearbody dt.
  destruct (tick_frame tk) as [hands|].
  - destruct (detect M hands) as [d|]; [|discriminate].
    pose proof (gesture_step_time M d (tick_shoot_time tk)
                  (mkLoop (tick_time tk) (last_heart_state lp)
                          (last_aiming_position lp)) g) as Ht.
    destruct (gesture_step M d (tick_shoot_time tk)
                           (mkLoop (tick_time tk) (last_heart_state lp)
                                   (last_aiming_position lp), g))
      as [lp1 g1] eqn:Hg.
    cbn [fst last_time] in Ht.
    intros [= <-]. exists g1, dt. cbn [fst snd].
    split; [exists d; rewrite Hg; split; reflexivity|].
    split; [reflexivity|]. split; [exact Hcap|]. split; [exact Hraw|].
    split; [exact Hle | exact Ht].
  - intros [= <-]. exists g, dt. cbn [fst snd last_time].
    split; [reflexivity|].
    split; [reflexivity|]. split; [exact Hcap|]. split; [exact Hraw|].
    split; [exact Hle | reflexivity].
Qed.

(** The iteration that follows a stall of 30 s ages a shot effect by 0.1 s;
    one that follows the previous iteration after 1/16 s ages it by
    1/16 s. In both, the M key pressed in the iteration adds its effect
    before the update, which ages it too. *)
Lemma iteration_step_capped_witness :
  option_map (fun st => (map e_age (shoot_effects (snd st)), last_time (fst st)))
    (main_iteration Example.lib
       (mkTick 40 None 40 [] 40 Example.some_draw)
       (Loop_init 10,
        shoot Example.lib 39.9 500 500 (start_game 39 39 Game_init)))
  = Some ([0.1%float], 40%float) /\
  option_map (fun st => (map e_age (shoot_effects (snd st)), last_time (fst st)))
    (main_iteration Example.lib
       (mkTick 40 None 40 [] 40 Example.some_draw)
       (Loop_init 39.9375,
        shoot Example.lib 39.5 500 500 (start_game 39 39 Game_init)))
  = Some ([0.0625%float], 40%float) /\
  option_map (fun st => map e_age (shoot_effects (snd st)))
    (main_iteration Example.lib
       (mkTick 40 None 40 [Example.key K_m 40] 40 Example.some_draw)
       (Loop_init 39.9375,
        shoot Example.lib 39.5 500 500 (start_game 39 39 Game_init)))
  = Some [0.0625%float; 0.0625%float].
Proof.
  destruct (main_iteration Example.lib
              (mkTick 40 None 40 [] 40 Example.some_draw)
              (Loop_init 10,
               shoot Example.lib 39.9 500 500 (start_game 39 39 Game_init)))
    as [st'|] eqn:Hit; [|vm_compute in Hit; discriminate].
  destruct (iteration_step_capped Example.lib _ _ _ st' Hit)
    as (g1 & dt & Hg1 & Hupd & Hcap & _ & _ & Htime).
  cbn [tick_frame] in Hg1. subst g1.
  rewrite (Hcap eq_refl) in Hupd.
  destruct st' as [lp' g']. cbn [option_map fst snd] in *.
  rewrite Hupd, Htime.
  repeat split; vm_compute; reflexivity.
Defined.

(** ** The ticket value *)

(** X12: the ticket value never decreases when more balloons are popped, is at
    most 90, and is a multiple of 6. *)
Theorem tickets_monotone (g1 g2 : Game) :
  balloons_popped g1 <= balloons_popped g2 ->
  calculate_time_tickets g1 <= calculate_time_tickets g2 /\
  calculate_time_tickets g2 <= 90 /\
  calculate_time_tickets g2 mod 6 = 0.
Proof.
  intros Hle. unfold calculate_time_tickets.
  destruct (Z.geb_spec (balloons_popped g1) 30),
           (Z.geb_spec (balloons_popped g1) 15),
           (Z.geb_spec (balloons_popped g2) 30),
           (Z.geb_spec (balloons_popped g2) 15);
    repeat split; try lia; try reflexivity; apply Z.mod_mul; lia.
Qed.

(** No balloon popped against ten popped. *)
Lemma tickets_monotone_witness :
  balloons_popped Game_init <= balloons_popped Example.ten_popped /\
  calculate_time_tickets Game_init <= calculate_time_tickets Example.ten_popped.
Proof.
  assert (H : balloons_popped Game_init <= balloons_popped Example.ten_popped)
    by (cbn; lia).
  split; [exact H|]. exact (proj1 (tickets_monotone _ _ H)).
Defined.

(** ** Invariants of every session the main loop reaches *)

Section LoopInvariant.

Variable M : MathLib.
Variable P : Game -> Prop.
Hypothesis P_shoot : forall t x y g, P g -> P (shoot M t x y g).
Hypothesis P_start : forall a b g, P g -> P (start_game a b g).
Hypothesis P_update : forall now d dt g, P g -> P (update M now d dt g).
Hypothesis P_aiming : forall a p g, P g -> P (set_aiming a p g).
Hypothesis P_state : forall s g, P g -> P (with_state s g).
Hypothesis P_running : forall r g, P g -> P (with_running r g).

Lemma event_step_invariant (g : Game) (ev : Event * float * float) :
  P g -> P (event_step M g ev).
Proof.
  intros Hg. destruct ev as [[event t1] t2]. unfold event_step, handle_event.
  destruct event as [| key |]; auto.
  destruct key, (state g); auto.
Qed.

Lemma events_invariant :
  forall evs g, P g -> P (fold_left (event_step M) evs g).
Proof.
  induction evs as [| ev rest IH]; intros g Hg; cbn [fold_left]; auto.
  apply IH, event_step_invariant, Hg.
Qed.

Lemma gesture_step_invariant (d : Detection) (t : float) (lp : Loop)
      (g : Game) :
  P g -> P (snd (gesture_step M d t (lp, g))).
Proof.
  intros Hg. unfold gesture_step, record_aim.
  destruct (state_in_ready_run g); [destruct (_ && _)|];
    match goal with
    | |- context [shoot_request ?a ?b ?c] =>
        destruct (shoot_request a b c) as [[x y]|]
    end; cbn [snd]; auto.
Qed.

Lemma main_iteration_invariant (tk : Tick) (st st' : Loop * Game) :
  P (snd st) -> main_iteration M tk st = Some st' -> P (snd st').
Proof.
  destruct st as [lp g]. cbn [snd]. intros Hg. unfold main_iteration.
  destruct (tick_frame tk) as [hands|].
  - destruct (detect M hands) as [d|]; [|discriminate].
    pose proof (gesture_step_invariant d (tick_shoot_time tk)
                  (mkLoop (tick_time tk) (last_heart_state lp)
                          (last_aiming_position lp)) g Hg) as H1.
    destruct (gesture_step M d _ _) as [lp1 g1]. cbn [snd] in H1.
    intros [= <-]. cbn [snd]. apply P_update, events_invariant, H1.
  - intros [= <-]. cbn [snd]. apply P_update, events_invariant, Hg.
Qed.

Lemma main_loop_invariant :
  forall ticks st st',
    P (snd st) -> main_loop M ticks st = Some st' -> P (snd st').
Proof.
  induction ticks as [| tk rest IH]; intros st st' Hst; cbn [main_loop].
  - intros [= <-]. exact Hst.
  - destruct (running (snd st)); [|intros [= <-]; exact Hst].
    destruct (main_iteration M tk st) as [st1|] eqn:Hit; [|discriminate].
    apply IH. exact (main_iteration_invariant tk st st1 Hst Hit).
Qed.

End LoopInvariant.

Lemma shoot_popped_bounds (M : MathLib) (t x y : float) (g : Game) :
  balloons_popped g <= balloons_popped (shoot M t x y g).
Proof.
  unfold shoot. destruct (PrimFloat.ltb _ _); [lia|]. cbv zeta.
  pose proof (hit_scan_conserves M (virtual_x x) (virtual_y y) (balloons g)
                                 (score g) (balloons_popped g)) as Hc.
  cbv zeta in Hc. destruct (hit_scan _ _ _ _ _ _) as [[bs sc] popped].
  cbn [snd balloons_popped] in *. lia.
Qed.

(** X13: in every session the main loop reaches from its start, the popped
    counter is not negative, so the ticket value lies between -90 and 90. *)
Theorem reachable_popped_nonnegative (M : MathLib) (ticks : list Tick)
        (t0 : float) (st : Loop * Game) :
  main_loop M ticks (Loop_init t0, Game_init) = Some st ->
  0 <= balloons_popped (snd st) /\
  -90 <= calculate_time_tickets (snd st) <= 90.
Proof.
  intros Hrun.
  assert (Hp : 0 <= balloons_popped (snd st)).
  { apply (main_loop_invariant M (fun g => 0 <= balloons_popped g))
      with (ticks := ticks) (st := (Loop_init t0, Game_init));
      try exact Hrun; try (intros; cbn; lia).
    - intros t x y g Hg. pose proof (shoot_popped_bounds M t x y g). lia.
    - intros now d dt g Hg.
      unfold update. destruct (state g); try exact Hg.
      destruct (PrimFloat.leb _ _); [exact Hg|].
      destruct (PrimFloat.leb _ _); exact Hg. }
  split; [exact Hp|]. unfold calculate_time_tickets.
  destruct (Z.geb_spec (balloons_popped (snd st)) 30),
           (Z.geb_spec (balloons_popped (snd st)) 15); lia.
Qed.

(** The replayed session. *)
Lemma reachable_popped_nonnegative_witness :
  option_map (fun st => 0 <=? balloons_popped (snd st))
             (main_loop Example.lib Example.replay_run (Loop_init 0, Game_init))
  = Some true.
Proof.
  destruct (main_loop Example.lib Example.replay_run (Loop_init 0, Game_init))
    as [st|] eqn:Hrun; [|vm_compute in Hrun; discriminate].
  cbn [option_map]. f_equal. apply Z.leb_le.
  exact (proj1 (reachable_popped_nonnegative Example.lib Example.replay_run 0
                                             st Hrun)).
Defined.

Lemma well_typed_kill (b : Balloon) : well_typed b -> well_typed (Balloon_kill b).
Proof. intros H. exact H. Qed.

Lemma well_typed_update (M : MathLib) (dt : float) (b : Balloon) :
  well_typed b -> well_typed (Balloon_update M dt b).
Proof. intros H. exact H. Qed.

Lemma well_typed_init (x y : float) (c : Color) (s : float) (t : BalloonType) :
  well_typed (Balloon_init x y c s t).
Proof. destruct t; reflexivity. Qed.

Lemma shoot_well_typed (M : MathLib) (t x y : float) (g : Game) :
  Forall well_typed (balloons g) ->
  Forall well_typed (balloons (shoot M t x y g)).
Proof.
  intros Hg. unfold shoot. destruct (PrimFloat.ltb _ _); [exact Hg|]. cbv zeta.
  destruct (hit_scan_first M (virtual_x x) (virtual_y y) (score g)
                           (balloons_popped g) (balloons g))
    as [[_ Hscan] | (before & b & after & Hsplit & _ & _ & Hscan)];
    rewrite Hscan; cbn [balloons]; [exact Hg|].
  rewrite Hsplit in Hg. apply Forall_app in Hg. destruct Hg as [Hb Ha].
  apply Forall_app. split; [exact Hb|].
  inversion Ha; subst. constructor; [apply well_typed_kill|]; assumption.
Qed.

Lemma update_well_typed (M : MathLib) (now : float) (d : SpawnDraw)
      (dt : float) (g : Game) :
  Forall well_typed (balloons g) ->
  Forall well_typed (balloons (update M now d dt g)).
Proof.
  intros Hg. apply Forall_forall. intros b' Hin.
  destruct (update_balloons_origin M now d dt g b' Hin)
    as (b & [Hb | ->] & [-> | ->]).
  - eapply Forall_forall; eassumption.
  - apply well_typed_update. eapply Forall_forall; eassumption.
  - apply well_typed_init.
  - apply well_typed_update, well_typed_init.
Qed.

(** X14: in every session the main loop reaches from its start, each balloon has
    the score value and radius of its type; so a shot changes the score by
    0, +10, +15, +20, +100 or -30 and nothing else. *)
Theorem reachable_balloons_typed (M : MathLib) (ticks : list Tick)
        (t0 : float) (st : Loop * Game) :
  main_loop M ticks (Loop_init t0, Game_init) = Some st ->
  Forall well_typed (balloons (snd st)) /\
  (forall t x y,
      In (score (shoot M t x y (snd st)) - score (snd st))
         [0; 10; 15; 20; 100; -30]).
Proof.
  intros Hrun.
  assert (Ht : Forall well_typed (balloons (snd st))).
  { refine (main_loop_invariant M (fun g => Forall well_typed (balloons g))
                                _ _ _ _ _ _ ticks (Loop_init t0, Game_init) st
                                _ Hrun).
    - intros t x y g. apply shoot_well_typed.
    - intros a b g _. constructor.
    - intros now d dt g. apply update_well_typed.
    - intros a p g Hg. exact Hg.
    - intros s g Hg. exact Hg.
    - intros r g Hg. exact Hg.
    - constructor. }
  split; [exact Ht|]. intros t x y. unfold shoot.
  destruct (PrimFloat.ltb _ _); [rewrite Z.sub_diag; cbn; auto|]. cbv zeta.
  destruct (hit_scan_first M (virtual_x x) (virtual_y y) (score (snd st))
                           (balloons_popped (snd st)) (balloons (snd st)))
    as [[_ Hscan] | (before & b & after & Hsplit & _ & _ & Hscan)];
    rewrite Hscan; cbn [score]; [rewrite Z.sub_diag; cbn; auto|].
  rewrite Hsplit in Ht. apply Forall_app in Ht. destruct Ht as [_ Ht].
  inversion Ht as [| ? ? Hb _]; subst. unfold well_typed in Hb.
  replace (score (snd st) + b_score_value b - score (snd st))
    with (b_score_value b) by lia.
  destruct (b_type b); cbn in Hb; injection Hb as -> _; cbn; auto 10.
Qed.

(** A session with a bonus balloon, spawned by the update at clock 1.9: a
    shot at the balloon adds 20 to the score, a shot elsewhere adds 0. In
    the run that goes on with the gun pointing up, the loop's own shot has
    popped the balloon. *)
Lemma reachable_balloons_typed_witness :
  option_map (fun st => (map b_type (balloons (snd st)),
                         map b_score_value (balloons (snd st)),
                         score (shoot Example.lib 2.5 208 998 (snd st))
                         - score (snd st),
                         score (shoot Example.lib 2.5 500 500 (snd st))
                         - score (snd st)))
             (main_loop Example.lib Example.spawn_run (Loop_init 0, Game_init))
  = Some ([bonus], [20], 20, 0) /\
  option_map (fun st => (score (snd st), balloons_popped (snd st)))
             (main_loop Example.lib Example.hit_run (Loop_init 0, Game_init))
  = Some (20, 1).
Proof.
  destruct (main_loop Example.lib Example.spawn_run (Loop_init 0, Game_init))
    as [st|] eqn:Hrun; [|vm_compute in Hrun; discriminate].
  pose proof (proj2 (reachable_balloons_typed Example.lib Example.spawn_run 0
                                              st Hrun) 2.5%float 208%float
                    998%float) as Hin.
  vm_compute in Hrun. injection Hrun as <-.
  split; vm_compute; reflexivity.
Defined.

(** ** The detector's fields and the debug overlay *)

Lemma detect_hands_verdict (M : MathLib) :
  forall hands,
    option_map fst (detect_hands M hands) = detect M hands /\
    (forall d self',
        detect_hands M hands = Some (d, self') ->
        self' = mkDetector (heart_detected d) (heart_position d)
                           (det_is_aiming d) (det_aiming_position d)).
Proof.
  induction hands as [| hand rest [IHv IHs]]; cbn [detect_hands detect].
  - split; [reflexivity|]. intros d self' [= <- <-]. reflexivity.
  - destruct (_detect_gun_gesture M hand) as [[[shoot_pos aiming] aim_pos]|];
      [|split; [reflexivity | discriminate]].
    destruct (Py.truthy shoot_pos);
      [split; [reflexivity | intros d self' [= <- <-]; reflexivity]|].
    destruct aiming;
      [split; [reflexivity | intros d self' [= <- <-]; reflexivity]|].
    split; [exact IHv | exact IHs].
Qed.

Lemma detect_frame_result (M : MathLib) (self : Detector) (hands : list Hand)
      (d : Detection) (debug_frame : DebugFrame) (self' : Detector) :
  detect_frame M self hands = Some (d, debug_frame, self') ->
  detect M hands = Some d /\
  debug_frame = get_debug_frame self hands /\
  self' = mkDetector (heart_detected d) (heart_position d)
                     (det_is_aiming d) (det_aiming_position d).
Proof.
  destruct (detect_hands_verdict M hands) as [Hv Hs]. unfold detect_frame.
  destruct (detect_hands M hands) as [[d0 s0]|]; [|discriminate].
  cbn [option_map fst snd] in *. intros [= <- <- <-].
  split; [symmetry; exact Hv|]. split; [reflexivity|]. apply Hs. reflexivity.
Qed.

(** X15: the verdict of [detect] does not depend on what the detector remembers
    from earlier frames: it is the verdict computed from the landmarks
    alone. After the call the detector's four fields hold exactly the
    returned verdict, and the debug frame shows the hands of this frame. *)
Theorem detector_fields_mirror_verdict (M : MathLib) (self : Detector)
        (hands : list Hand) :
  option_map (fun r => fst (fst r)) (detect_frame M self hands)
  = detect M hands /\
  (forall d debug_frame self',
      detect_frame M self hands = Some (d, debug_frame, self') ->
      self' = mkDetector (heart_detected d) (heart_position d)
                         (det_is_aiming d) (det_aiming_position d) /\
      drawn_hands debug_frame = hands).
Proof.
  split.
  - destruct (detect_hands_verdict M hands) as [Hv _]. unfold detect_frame.
    destruct (detect_hands M hands) as [[d0 s0]|]; exact Hv.
  - intros d debug_frame self' H.
    destruct (detect_frame_result M self hands d debug_frame self' H)
      as (_ & -> & ->).
    split; reflexivity.
Qed.

(** X16: the status text drawn on a frame is that of the previous call's
    verdict: SHOOTING! after a shot, AIMING after an aiming verdict, whatever
    the current frame shows; only after an idle verdict does it tell whether
    the current frame has a hand. On the first frame it is HAND DETECTED or
    NO HAND. *)
Theorem status_text_lags_one_frame (M : MathLib) (self : Detector)
        (hands hands2 : list Hand) (d d2 : Detection)
        (debug_frame debug_frame2 : DebugFrame) (self' self2 : Detector) :
  detect_frame M self hands = Some (d, debug_frame, self') ->
  detect_frame M self' hands2 = Some (d2, debug_frame2, self2) ->
  status_text debug_frame2 =
    (if heart_detected d then "SHOOTING!"%string
     else if det_is_aiming d then "AIMING"%string
     else match hands2 with
          | [] => "NO HAND"%string
          | _ :: _ => "HAND DETECTED"%string
          end) /\
  (self = Detector_init ->
   status_text debug_frame =
     match hands with
     | [] => "NO HAND"%string
     | _ :: _ => "HAND DETECTED"%string
     end).
Proof.
  intros H1 H2.
  destruct (detect_frame_result M self hands d debug_frame self' H1)
    as (_ & -> & ->).
  destruct (detect_frame_result M _ hands2 d2 debug_frame2 self2 H2)
    as (_ & -> & _).
  split; [reflexivity|]. intros ->. reflexivity.
Qed.

(** A gun pointing up, then two frames without a hand: the shot is
    announced one frame late, over an empty frame. *)
Lemma status_text_lags_one_frame_witness :
  option_map (map (fun r => (heart_detected (fst r), status_text (snd r))))
             (detect_run Example.lib Detector_init
                         [[Example.hand_up 0.5 0.4]; []; []])
  = Some [(true, "HAND DETECTED"%string); (false, "SHOOTING!"%string);
          (false, "NO HAND"%string)].
Proof.
  destruct (detect_frame Example.lib Detector_init [Example.hand_up 0.5 0.4])
    as [[[d dbg] self']|] eqn:H1; [|vm_compute in H1; discriminate].
  destruct (detect_frame Example.lib self' []) as [[[d2 dbg2] self2]|] eqn:H2;
    [|vm_compute in H1; injection H1 as <- <- <-; vm_compute in H2;
      discriminate].
  pose proof (status_text_lags_one_frame Example.lib _ _ _ _ _ _ _ _ _ H1 H2)
    as [Hlag _].
  vm_compute in H1. injection H1 as <- <- <-.
  vm_compute. reflexivity.
Defined.

(** ** Texts of the game and result screens *)

Lemma to_int_positive (r : float) (n : Z) :
  (0 <? r)%float = true -> Py.to_int r = Some n -> 0 <= n.
Proof.
  assert (Hmag : forall (m : positive) (e : Z),
             0 <= (if 0 <=? e then Z.pos m * 2 ^ e
                   else Z.pos m / 2 ^ (- e))).
  { intros m e. destruct (Z.leb_spec 0 e).
    - apply Z.mul_nonneg_nonneg; [lia | apply Z.pow_nonneg; lia].
    - apply Z.div_pos; [lia | apply Z.pow_pos_nonneg; lia]. }
  rewrite ltb_spec. unfold Py.to_int.
  change (Prim2SF 0) with (S754_zero false).
  destruct (Prim2SF r) as [s | s | | s m e]; unfold SFltb, SFcompare;
    try (intros; discriminate).
  destruct s; [intros; discriminate|].
  intros _ H. injection H as <-. exact (Hmag m e).
Qed.

(** X17: the number of seconds shown on the game screen is never negative: once
    the game time is used up the text stays at 0, also when the screen is
    drawn after the deadline has passed. *)
Theorem remaining_seconds_nonnegative (now : float) (g : Game) (n : Z) :
  remaining_seconds now g = Some n -> 0 <= n.
Proof.
  unfold remaining_seconds. cbv zeta.
  destruct (0 <? Py.of_int GAME_DURATION - (now - game_start_time g))%float
    eqn:E.
  - apply to_int_positive, E.
  - intros [= <-]. lia.
Qed.

(** A game started at clock 1000, drawn 12.5 s and 31 s later. *)
Lemma remaining_seconds_nonnegative_witness :
  remaining_seconds 1012.5 (start_game 1000 1000 Game_init) = Some 17 /\
  remaining_seconds 1031 (start_game 1000 1000 Game_init) = Some 0 /\
  0 <= 17.
Proof.
  assert (H : remaining_seconds 1012.5 (start_game 1000 1000 Game_init)
              = Some 17) by (vm_compute; reflexivity).
  split; [exact H|]. split; [vm_compute; reflexivity|].
  exact (remaining_seconds_nonnegative _ _ _ H).
Defined.

(** X18: what the result screen shows for a popped count that is not negative:
    "+1:30" from 30 on, "+1:SS" from 25 to 29, "+Ns" from 15 to 24 (so "+0s"
    at 15), "-Ns" from 6 to 14, and "-1:SS" up to 5 (so "-1:30" at 0); the
    line is red exactly when fewer than 15 balloons were popped. *)
Theorem result_ticket_line (g : Game) :
  0 <= balloons_popped g ->
  fst (ticket_text g) =
    (let p := balloons_popped g in
     if 30 <=? p then "TICKETS: +1:30"%string
     else if 25 <=? p then
       String.append "TICKETS: +1:" (format_02d ((p - 25) * 6))
     else if 15 <=? p then
       String.append "TICKETS: +"
                     (String.append (py_str ((p - 15) * 6)) "s")
     else if 6 <=? p then
       String.append "TICKETS: -"
                     (String.append (py_str ((15 - p) * 6)) "s")
     else
       String.append "TICKETS: -1:" (format_02d ((5 - p) * 6))) /\
  snd (ticket_text g) =
    (if balloons_popped g <? 15 then (255, 99, 71) else (255, 215, 0)).
Proof.
  intros Hp. unfold ticket_text, calculate_time_tickets. cbv zeta.
  generalize dependent (balloons_popped g). intros p Hp.
  destruct (Z.leb_spec 30 p) as [H30 | H30].
  - replace (p >=? 30) with true by (symmetry; apply Z.geb_le; lia).
    replace (p <? 15) with false by (symmetry; apply Z.ltb_ge; lia).
    split; reflexivity.
  - assert (Hc : p = 0 \/ p = 1 \/ p = 2 \/ p = 3 \/ p = 4 \/ p = 5 \/ p = 6 \/ p = 7 \/ p = 8 \/ p = 9 \/ p = 10 \/ p = 11 \/ p = 12 \/ p = 13 \/ p = 14 \/ p = 15 \/ p = 16 \/ p = 17 \/ p = 18 \/ p = 19 \/ p = 20 \/ p = 21 \/ p = 22 \/ p = 23 \/ p = 24 \/ p = 25 \/ p = 26 \/ p = 27 \/ p = 28 \/ p = 29) by lia.
    repeat match goal with
           | H : _ \/ _ |- _ => destruct H as [H | H]
           end; subst p; split; vm_compute; reflexivity.
Qed.

(** Ten balloons popped. *)
Lemma result_ticket_line_witness :
  0 <= balloons_popped Example.ten_popped /\
  ticket_text Example.ten_popped = ("TICKETS: -30s"%string, (255, 99, 71)).
Proof.
  assert (H : 0 <= balloons_popped Example.ten_popped) by (cbn; lia).
  split; [exact H|].
  destruct (result_ticket_line Example.ten_popped H) as [Ht Hc].
  destruct (ticket_text Example.ten_popped) as [text colour].
  cbn [fst snd] in *. rewrite Ht, Hc. vm_compute. reflexivity.
Defined.

(** ** The type draw outside [0, 1] *)

Lemma leb_above_one (r : float) (mc : positive) (ec : Z) :
  ec < -52 -> (r <=? 1)%float = false ->
  SFleb (Prim2SF r) (S754_finite false mc ec) = false.
Proof.
  intros Hec. rewrite leb_spec.
  change (Prim2SF 1) with (S754_finite false 4503599627370496 (-52)).
  destruct (Prim2SF r) as [s | s | | s m e]; unfold SFleb, SFcompare;
    try reflexivity; try (intros; discriminate).
  - destruct s; [intros; discriminate | reflexivity].
  - destruct s; [intros; discriminate|].
    destruct (Z.compare_spec e (-52)) as [He | He | He];
      destruct (Z.compare_spec e ec) as [Hc | Hc | Hc];
      try lia; try reflexivity; intros; discriminate.
Qed.

(** X19: a drawn value that is not at most 1.0 (a value above 1.0, or a NaN)
    passes every comparison of the loop and leaves the default type
    "normal". *)
Theorem draw_out_of_range_is_normal (r : float) :
  (r <=? 1)%float = false -> draw_balloon_type r = normal.
Proof.
  intros Hr. unfold draw_balloon_type.
  destruct (choose_type_scan r normal BALLOON_TYPES 0%float)
    as [(before & t & c & after & Hsplit & _ & Hc & _) | [_ H]];
    [exfalso | exact H].
  rewrite cumulative_table in Hsplit.
  assert (Hin : In (t, c)
                   [ (normal, 0.35%float); (bonus, 0.55%float);
                     (penalty, 0.75%float); (fast, 0.85%float);
                     (zigzag, 0.95%float); (ultra_rare, 1%float) ])
    by (rewrite Hsplit; apply in_elt).
  cbn [In] in Hin.
  repeat match goal with
         | H : _ \/ _ |- _ => destruct H as [H | H]
         end; try contradiction; injection Hin as <- <-;
    try congruence;
    rewrite leb_spec in Hc;
    match type of Hc with
    | SFleb _ ?x = true =>
        let y := eval vm_compute in x in change x with y in Hc
    end;
    (rewrite leb_above_one in Hc; [discriminate | lia | exact Hr]).
Qed.

(** The drawn value 1.5. *)
Lemma draw_out_of_range_is_normal_witness :
  (1.5 <=? 1)%float = false /\ draw_balloon_type 1.5 = normal.
Proof.
  split; [reflexivity|]. exact (draw_out_of_range_is_normal 1.5 eq_refl).
Defined.

(** ** The camera manager *)

Lemma match_registered_result (serial p : String.string) :
  forall cams,
    match match_registered serial p cams with
    | Returned (Some cams') =>
        marks_first serial p cams cams' /\
        exists r, first_with serial cams r /\ reg_model r <> None
    | Returned None => existsb (has_serial serial) cams = false
    | Raised e =>
        e = KeyError /\ exists r, first_with serial cams r /\ reg_model r = None
    end.
Proof.
  induction cams as [| r rest IH]; cbn [match_registered existsb].
  - reflexivity.
  - change (match reg_serial r with
            | Some s => String.eqb serial s
            | None => false
            end) with (has_serial serial r).
    destruct (has_serial serial r) eqn:Hr.
    + destruct (reg_model r) eqn:Hm.
      * split.
        -- exists [], r, rest. repeat split; auto.
           unfold seen_at. rewrite Hm. reflexivity.
        -- exists r. split; [exists [], rest; repeat split; auto|].
           rewrite Hm. discriminate.
      * split; [reflexivity|]. exists r.
        split; [exists [], rest; repeat split; auto | exact Hm].
    + destruct (match_registered serial p rest) as [[rest'|]|e].
      * destruct IH as ((before & r1 & after & -> & Hb & Hr1 & ->)
                        & r2 & (before2 & after2 & H2 & Hb2 & Hr2) & Hm2).
        split.
        -- exists (r :: before), r1, after. cbn [existsb app]. rewrite Hr, Hb.
           repeat split; auto.
        -- exists r2. split; [|exact Hm2].
           exists (r :: before2), after2. cbn [existsb app].
           rewrite Hr, Hb2, H2. repeat split; auto.
      * cbn [orb]. exact IH.
      * destruct IH as (-> & r1 & (before & after & -> & Hb & Hr1) & Hm).
        split; [reflexivity|]. exists r1. split; [|exact Hm].
        exists (r :: before), after. cbn [existsb app]. rewrite Hr, Hb.
        repeat split; auto.
Qed.

Lemma marks_first_exists (serial p : String.string)
      (cams cams' : list Registered) :
  marks_first serial p cams cams' -> existsb (has_serial serial) cams = true.
Proof.
  intros (before & r & after & -> & _ & Hr & _).
  rewrite existsb_app. cbn [existsb]. rewrite Hr. cbn. apply orb_true_r.
Qed.

Lemma first_with_exists (serial : String.string) (cams : list Registered)
      (r : Registered) :
  first_with serial cams r ->
  In r cams /\ existsb (has_serial serial) cams = true.
Proof.
  intros (before & after & -> & _ & Hr).
  split; [apply in_or_app; right; left; reflexivity|].
  rewrite existsb_app. cbn [existsb]. rewrite Hr. cbn. apply orb_true_r.
Qed.

Lemma first_with_unique (serial : String.string) (cams : list Registered)
      (r1 r2 : Registered) :
  first_with serial cams r1 -> first_with serial cams r2 -> r1 = r2.
Proof.
  intros (b1 & a1 & -> & Hb1 & Hr1) (b2 & a2 & Heq & Hb2 & Hr2).
  revert b2 Heq Hb2. induction b1 as [| x b1 IH]; intros b2 Heq Hb2.
  - destruct b2 as [| y b2]; cbn [app] in Heq.
    + injection Heq as ->. reflexivity.
    + injection Heq as -> _. cbn [existsb] in Hb2. rewrite Hr1 in Hb2.
      discriminate.
  - cbn [existsb] in Hb1. apply orb_false_iff in Hb1. destruct Hb1 as [Hx Hb1].
    destruct b2 as [| y b2]; cbn [app] in Heq.
    + injection Heq as -> _. rewrite Hr2 in Hx. discriminate.
    + injection Heq as _ Heq. cbn [existsb] in Hb2.
      apply orb_false_iff in Hb2. exact (IH Hb1 b2 Heq (proj2 Hb2)).
Qed.

Lemma _get_device_info_serial (env : CameraEnv) (i : nat) :
  match _get_device_info env (video_device i) with
  | Returned o =>
      run_raises env i = false /\
      match o with
      | Some info => info_serial info = reported_serial env i
      | None => reported_serial env i = None
      end
  | Raised e => e = RunError /\ v4l2_ctl env (video_device i) = run_raised
  end.
Proof.
  unfold _get_device_info, reported_serial, run_raises.
  destruct (v4l2_ctl env (video_device i)) as [| | rc info];
    [split; [apply andb_false_r | reflexivity] | split; reflexivity |].
  destruct rc as [| q | q]; cbn [Z.eqb negb];
    try (split; [apply andb_false_r | reflexivity]).
  destruct info as [[m|] [sr|] [bus|] [drv|]];
    (split; [apply andb_false_r | reflexivity]).
Qed.

Lemma search_result_next (env : CameraEnv) (cams : list Registered)
      (i n : nat) (o : Outcome Found) :
  skipped env cams i = true ->
  search_result env cams (S i) n o -> search_result env cams i (S n) o.
Proof.
  intros Hi. unfold search_result. destruct o as [f | e].
  - destruct (found_path f) as [p|].
    + intros (k & serial & cams' & Hk & Hp & Hex & Hser & Hin & Hlow & Hrest).
      exists k, serial, cams'. split; [lia|]. split; [exact Hp|].
      split; [exact Hex|]. split; [exact Hser|]. split; [exact Hin|].
      split; [|exact Hrest].
      intros j Hj. destruct (Nat.eq_dec j i) as [-> | Hne]; [exact Hi|].
      apply Hlow. lia.
    + intros (Hall & Hrest). split; [|exact Hrest].
      intros j Hj. destruct (Nat.eq_dec j i) as [-> | Hne]; [exact Hi|].
      apply Hall. lia.
  - intros (k & Hk & Hlow & Hcause). exists k. split; [lia|].
    split; [|exact Hcause].
    intros j Hj. destruct (Nat.eq_dec j i) as [-> | Hne]; [exact Hi|].
    apply Hlow. lia.
Qed.

Lemma probe_devices_result (env : CameraEnv) (cams : list Registered) :
  forall n i, search_result env cams i n (probe_devices env cams i n).
Proof.
  induction n as [| n IH]; intros i; cbn [probe_devices].
  - cbn [search_result found_path found_config found_saved].
    split; [intros j Hj; lia|]. split; reflexivity.
  - destruct (path_exists env (video_device i)) eqn:Hex; cbn [negb].
    + pose proof (_get_device_info_serial env i) as Hinfo.
      destruct (_get_device_info env (video_device i)) as [[info|]|e].
      * destruct Hinfo as (Hrun & Hinfo).
        destruct (info_serial info) as [serial|] eqn:Hser.
        -- pose proof (match_registered_result serial (video_device i) cams)
             as Hm.
           destruct (match_registered serial (video_device i) cams)
             as [[cams'|]|e].
           ++ destruct Hm as (Hm & r & Hfirst & Hmodel).
              destruct (config_writable env) eqn:Hw.
              ** cbn [search_result found_path found_config found_saved].
                 exists i, serial, cams'. split; [lia|].
                 split; [reflexivity|]. split; [exact Hex|].
                 split; [symmetry; exact Hinfo|].
                 split; [exact (marks_first_exists _ _ _ _ Hm)|].
                 split; [intros j Hj; lia|]. split; [exact Hm|].
                 split; [exists r; auto|]. auto.
              ** exists i. split; [lia|]. split; [intros j Hj; lia|].
                 cbn [raise_cause]. split; [exact Hex|]. exists serial, r.
                 split; [symmetry; exact Hinfo|]. auto.
           ++ apply search_result_next; [|apply IH].
              unfold skipped, device_matches. rewrite Hrun, Hex, <- Hinfo, Hm.
              reflexivity.
           ++ destruct Hm as (-> & r & Hfirst & Hmodel). exists i.
              split; [lia|]. split; [intros j Hj; lia|]. cbn [raise_cause].
              split; [exact Hex|]. exists serial, r.
              split; [symmetry; exact Hinfo|]. auto.
        -- apply search_result_next; [|apply IH].
           unfold skipped, device_matches. rewrite Hrun, Hex, <- Hinfo.
           reflexivity.
      * destruct Hinfo as (Hrun & Hinfo). apply search_result_next; [|apply IH].
        unfold skipped, device_matches. rewrite Hrun, Hex, Hinfo. reflexivity.
      * destruct Hinfo as (-> & Hrun). exists i. split; [lia|].
        split; [intros j Hj; lia|]. cbn [raise_cause]. unfold run_raises.
        rewrite Hex, Hrun. reflexivity.
    + apply search_result_next; [|apply IH].
      unfold skipped, device_matches, run_raises. rewrite Hex. reflexivity.
Qed.

Lemma find_registered_camera_result (env : CameraEnv) (cfg : Config) :
  match cfg with
  | Some (r :: rest) =>
      search_result env (r :: rest) 0 10 (find_registered_camera env cfg)
  | _ => find_registered_camera env cfg = Returned (mkFound None cfg None)
  end.
Proof.
  destruct cfg as [[| r rest]|]; try reflexivity.
  apply probe_devices_result.
Qed.

Lemma skipped_no_match (env : CameraEnv) (cams : list Registered) (j : nat) :
  skipped env cams j = true ->
  device_matches env cams j = false /\ run_raises env j = false.
Proof.
  unfold skipped. intros H. apply andb_prop in H. destruct H as [H1 H2].
  split; [destruct (device_matches env cams j) | destruct (run_raises env j)];
    (reflexivity || discriminate).
Qed.

Lemma raise_cause_not_skipped (env : CameraEnv) (cams : list Registered)
      (k : nat) (e : Error) :
  raise_cause env cams k e -> skipped env cams k = false.
Proof.
  unfold skipped. destruct e; cbn [raise_cause].
  - intros (Hex & serial & r & Hser & Hfirst & _).
    unfold device_matches.
    rewrite Hex, Hser, (proj2 (first_with_exists _ _ _ Hfirst)). reflexivity.
  - intros ->. apply andb_false_r.
  - intros (Hex & serial & r & Hser & Hfirst & _).
    unfold device_matches.
    rewrite Hex, Hser, (proj2 (first_with_exists _ _ _ Hfirst)). reflexivity.
Qed.

Lemma run_raises_no_serial (env : CameraEnv) (k : nat)
      (serial : String.string) :
  run_raises env k = true -> reported_serial env k = Some serial -> False.
Proof.
  unfold run_raises, reported_serial.
  destruct (v4l2_ctl env (video_device k)); rewrite ?andb_false_r;
    discriminate.
Qed.

Lemma raise_cause_unique (env : CameraEnv) (cams : list Registered)
      (k : nat) (e1 e2 : Error) :
  raise_cause env cams k e1 -> raise_cause env cams k e2 -> e1 = e2.
Proof.
  pose proof (run_raises_no_serial env k) as Hrun.
  destruct e1, e2; cbn [raise_cause]; try reflexivity; intros H1 H2; exfalso.
  - destruct H1 as (_ & serial & _ & Hser & _). exact (Hrun serial H2 Hser).
  - destruct H1 as (_ & s1 & r1 & Hs1 & Hf1 & Hm1).
    destruct H2 as (_ & s2 & r2 & Hs2 & Hf2 & Hm2 & _).
    rewrite Hs1 in Hs2. injection Hs2 as <-.
    rewrite (first_with_unique _ _ _ _ Hf2 Hf1) in Hm2. exact (Hm2 Hm1).
  - destruct H2 as (_ & serial & _ & Hser & _). exact (Hrun serial H1 Hser).
  - destruct H2 as (_ & serial & _ & Hser & _). exact (Hrun serial H1 Hser).
  - destruct H2 as (_ & s1 & r1 & Hs1 & Hf1 & Hm1).
    destruct H1 as (_ & s2 & r2 & Hs2 & Hf2 & Hm2 & _).
    rewrite Hs1 in Hs2. injection Hs2 as <-.
    rewrite (first_with_unique _ _ _ _ Hf2 Hf1) in Hm2. exact (Hm2 Hm1).
  - destruct H1 as (_ & serial & _ & Hser & _). exact (Hrun serial H2 Hser).
Qed.

(** X20: when [find_registered_camera] returns a device, it is /dev/video<k> for
    the lowest k below 10 whose device exists and for which v4l2-ctl reports
    a serial number that a registered entry carries; the first entry with
    the serial number that device k reports, and no other, gets the device
    as its last seen device, and the changed configuration is what is
    written to the file, which can be written. When it returns none, no
    device of index below 10 matches an entry, and nothing is changed or
    written. *)
Theorem find_returns_lowest_registered (env : CameraEnv) (cfg : Config)
        (f : Found) :
  find_registered_camera env cfg = Returned f ->
  match found_path f with
  | Some p =>
      exists cams k serial cams',
        cfg = Some cams /\ (k < 10)%nat /\ p = video_device k /\
        path_exists env p = true /\
        reported_serial env k = Some serial /\
        existsb (has_serial serial) cams = true /\
        (forall j, (j < k)%nat -> device_matches env cams j = false) /\
        marks_first serial p cams cams' /\
        config_writable env = true /\
        found_config f = Some cams' /\
        found_saved f = Some (Some cams')
  | None =>
      found_config f = cfg /\ found_saved f = None /\
      (forall cams j, cfg = Some cams -> (j < 10)%nat ->
                      device_matches env cams j = false \/ cams = [])
  end.
Proof.
  intros Hf. pose proof (find_registered_camera_result env cfg) as H.
  rewrite Hf in H. destruct cfg as [[| r rest]|].
  - injection H as ->. cbn [found_path found_config found_saved].
    split; [reflexivity|]. split; [reflexivity|].
    intros cams j [= <-] _. right. reflexivity.
  - cbn [search_result] in H. destruct (found_path f) as [p|].
    + destruct H as (k & serial & cams' & Hk & Hp & Hex & Hser & Hin & Hlow
                     & Hmark & _ & Hrest).
      exists (r :: rest), k, serial, cams'.
      split; [reflexivity|]. split; [lia|]. split; [exact Hp|].
      split; [exact Hex|]. split; [exact Hser|]. split; [exact Hin|].
      split; [|split; [exact Hmark | exact Hrest]]. intros j Hj.
      apply skipped_no_match, Hlow. lia.
    + destruct H as (Hall & Hc & Hs). split; [exact Hc|]. split; [exact Hs|].
      intros cams j [= <-] Hj. left. apply skipped_no_match, Hall. lia.
  - injection H as ->. cbn [found_path found_config found_saved].
    split; [reflexivity|]. split; [reflexivity|]. intros; discriminate.
Qed.

(** The spare camera, second in the list, reports the serial B200 and is
    found at /dev/video2 although /dev/video0 exists; its entry, and not the
    first one, is marked, and the marked list is written. *)
Lemma find_returns_lowest_registered_witness :
  find_registered_camera Example.spare_plugged Example.two_cameras
  = Returned
      (mkFound
         (Some "/dev/video2"%string)
         (Some [ mkRegistered (Some "A100"%string) (Some "Front"%string) None
                              (Some (1280, 720)) (Some 30)
                              (Some "MJPG"%string);
                 mkRegistered (Some "B200"%string) (Some "Spare"%string)
                              (Some "/dev/video2"%string) None None None ])
         (Some
            (Some [ mkRegistered (Some "A100"%string) (Some "Front"%string)
                                 None (Some (1280, 720)) (Some 30)
                                 (Some "MJPG"%string);
                    mkRegistered (Some "B200"%string) (Some "Spare"%string)
                                 (Some "/dev/video2"%string)
                                 None None None ]))) /\
  reported_serial Example.spare_plugged 2 = Some "B200"%string /\
  reported_serial Example.spare_plugged 0 = None /\
  map (fun j => match Example.two_cameras with
                | Some cams => device_matches Example.spare_plugged cams j
                | None => false
                end) [0; 1; 2]%nat
  = [false; false; true].
Proof.
  destruct (find_registered_camera Example.spare_plugged Example.two_cameras)
    as [f | e] eqn:Hf; [|vm_compute in Hf; discriminate].
  pose proof (find_returns_lowest_registered _ _ f Hf) as H.
  vm_compute in Hf. injection Hf as <-.
  repeat split; vm_compute; reflexivity.
Defined.

(** X21: the search raises exactly in three ways, each at a device of index k
    below 10 before which every device is passed (it matches no entry and
    v4l2-ctl raises nothing uncaught on it): the KeyError of the model name,
    when device k exists and the first entry carrying the serial number it
    reports has no model name; the exception of the v4l2-ctl run on a device
    k that exists, when it is not one of the two that are caught; and the
    exception of the write of the configuration file, when device k exists,
    the first entry carrying its serial number has a model name and the file
    cannot be written. So with a model name in every registered entry, no
    such exception from v4l2-ctl on the devices below 10 that exist, and a
    configuration file that can be written, the search returns. *)
Theorem find_raises_three_ways (env : CameraEnv) (cams : list Registered) :
  (forall e,
      find_registered_camera env (Some cams) = Raised e <->
      cams <> [] /\
      exists k,
        (k < 10)%nat /\
        (forall j, (j < k)%nat -> skipped env cams j = true) /\
        raise_cause env cams k e) /\
  (Forall (fun r => reg_model r <> None) cams ->
   (forall j, (j < 10)%nat -> run_raises env j = false) ->
   config_writable env = true ->
   exists f, find_registered_camera env (Some cams) = Returned f).
Proof.
  assert (Hcause : forall e,
             find_registered_camera env (Some cams) = Raised e ->
             cams <> [] /\
             exists k,
               (k < 10)%nat /\
               (forall j, (j < k)%nat -> skipped env cams j = true) /\
               raise_cause env cams k e).
  { intros e He. pose proof (find_registered_camera_result env (Some cams)) as H.
    rewrite He in H. destruct cams as [| r rest]; [discriminate|].
    split; [discriminate|].
    destruct H as (k & Hk & Hlow & Hc). exists k. split; [lia|].
    split; [|exact Hc]. intros j Hj. apply Hlow. lia. }
  split.
  - intros e. split; [apply Hcause|].
    intros (Hne & k & Hk & Hlow & Hc).
    pose proof (find_registered_camera_result env (Some cams)) as H.
    destruct cams as [| r rest]; [contradiction|].
    destruct (find_registered_camera env (Some (r :: rest))) as [f | e'].
    + exfalso. pose proof (raise_cause_not_skipped _ _ _ _ Hc) as Hns.
      cbn [search_result] in H. destruct (found_path f) as [p|].
      * destruct H as (k' & serial & cams' & Hk' & -> & Hex & Hser & Hin & Hlow'
                       & _ & (r1 & Hfirst & Hmodel) & Hw & _).
        destruct (Nat.lt_trichotomy k k') as [Hlt | [-> | Hgt]].
        -- rewrite Hlow' in Hns; [discriminate | lia].
        -- destruct e; cbn [raise_cause] in Hc.
           ++ destruct Hc as (_ & s2 & r2 & Hs2 & Hf2 & Hm2).
              rewrite Hser in Hs2. injection Hs2 as <-.
              rewrite (first_with_unique _ _ _ _ Hf2 Hfirst) in Hm2.
              exact (Hmodel Hm2).
           ++ exact (run_raises_no_serial _ _ _ Hc Hser).
           ++ destruct Hc as (_ & _ & _ & _ & _ & _ & Hc). rewrite Hw in Hc.
              discriminate.
        -- pose proof (Hlow k' Hgt) as Hs.
           apply skipped_no_match in Hs. destruct Hs as [Hs _].
           unfold device_matches in Hs. rewrite Hex, Hser, Hin in Hs.
           discriminate.
      * destruct H as (Hall & _). rewrite Hall in Hns; [discriminate | lia].
    + f_equal. destruct H as (k' & Hk' & Hlow' & Hc').
      pose proof (raise_cause_not_skipped _ _ _ _ Hc) as Hns.
      pose proof (raise_cause_not_skipped _ _ _ _ Hc') as Hns'.
      destruct (Nat.lt_trichotomy k k') as [Hlt | [-> | Hgt]].
      * rewrite Hlow' in Hns; [discriminate | lia].
      * exact (raise_cause_unique _ _ _ _ _ Hc' Hc).
      * rewrite Hlow in Hns'; [discriminate | lia].
  - intros Hall Hrun Hw.
    destruct (find_registered_camera env (Some cams)) as [f | e]; [eauto|].
    exfalso. destruct (Hcause e eq_refl) as (_ & k & Hk & _ & Hc).
    destruct e; cbn [raise_cause] in Hc.
    + destruct Hc as (_ & serial & r & _ & Hfirst & Hm).
      exact (proj1 (Forall_forall _ _) Hall r
                   (proj1 (first_with_exists _ _ _ Hfirst)) Hm).
    + rewrite (Hrun k Hk) in Hc. discriminate.
    + destruct Hc as (_ & _ & _ & _ & _ & _ & Hc). rewrite Hw in Hc.
      discriminate.
Qed.

(** With the spare camera plugged in as /dev/video2 the search returns; it
    raises KeyError when the spare camera's entry has no model name, the
    exception of v4l2-ctl when running it on /dev/video0 is not permitted,
    and the exception of the write when the file cannot be written. *)
Lemma find_raises_three_ways_witness :
  (exists f, find_registered_camera Example.spare_plugged Example.two_cameras
             = Returned f) /\
  find_registered_camera Example.spare_plugged Example.nameless
  = Raised KeyError /\
  find_registered_camera Example.denied Example.two_cameras
  = Raised RunError /\
  find_registered_camera Example.read_only Example.two_cameras
  = Raised WriteError /\
  run_raises Example.denied 0 = true /\
  config_writable Example.read_only = false.
Proof.
  split.
  { apply find_raises_three_ways.
    - repeat constructor; discriminate.
    - intros j Hj. do 10 (destruct j as [| j]; [reflexivity|]). lia.
    - reflexivity. }
  split; [vm_compute; reflexivity|].
  split.
  { apply (proj1 (find_raises_three_ways Example.denied _)).
    split; [discriminate|]. exists 0%nat. split; [lia|].
    split; [intros j Hj; lia | reflexivity]. }
  repeat split; vm_compute; reflexivity.
Defined.

Lemma video_device_truthy (k : nat) : str_truthy (Some (video_device k)) = true.
Proof. reflexivity. Qed.

Lemma found_path_device (env : CameraEnv) (cfg : Config) (f : Found)
      (p : String.string) :
  find_registered_camera env cfg = Returned f ->
  found_path f = Some p ->
  exists k, p = video_device k.
Proof.
  intros Hf Hp. pose proof (find_registered_camera_result env cfg) as H.
  rewrite Hf in H. destruct cfg as [[| r rest]|];
    try (injection H as ->; discriminate).
  cbn [search_result] in H. rewrite Hp in H.
  destruct H as (k & _ & _ & _ & -> & _). exists k. reflexivity.
Qed.

Lemma found_nothing (env : CameraEnv) (cfg : Config) (f : Found) :
  find_registered_camera env cfg = Returned f ->
  found_path f = None ->
  found_config f = cfg /\ found_saved f = None.
Proof.
  intros Hf Hp. pose proof (find_registered_camera_result env cfg) as H.
  rewrite Hf in H. destruct cfg as [[| r rest]|];
    try (injection H as ->; split; reflexivity).
  cbn [search_result] in H. rewrite Hp in H. destruct H as (_ & Hc & Hs).
  split; assumption.
Qed.

(** X22: without a registered camera (no configuration file, no
    "registered_cameras" key, or an empty list) [initialize] probes nothing,
    writes nothing, opens /dev/video0, applies no setting, and returns
    whether that device opened. *)
Theorem initialize_without_registered (env : CameraEnv) (cfg : Config) :
  has_registered cfg = false ->
  initialize env cfg =
  Returned (capture_opens env "/dev/video0"%string,
            mkManager "/dev/video0"%string (capture_opens env "/dev/video0"%string) []
                      cfg None) /\
  has_registered (_load_config None) = false.
Proof.
  intros Hc. split; [|reflexivity].
  destruct cfg as [[| r rest]|]; try discriminate;
    unfold initialize; cbn;
    destruct (capture_opens env "/dev/video0"%string); reflexivity.
Qed.

(** No configuration file and no camera. *)
Lemma initialize_without_registered_witness :
  has_registered (_load_config None) = false /\
  initialize Example.no_camera (_load_config None) =
  Returned (false, mkManager "/dev/video0"%string false [] (Some []) None).
Proof.
  split; [reflexivity|].
  exact (proj1 (initialize_without_registered Example.no_camera
                                              (_load_config None) eq_refl)).
Defined.

(** X23: a device found by the search is the one [initialize] opens, before any
    last seen device and before /dev/video0. The result is whether it
    opened; if it did, the settings applied are the preferences of the first
    registered entry, whichever entry matched the device; if it did not,
    no setting is applied. The configuration written by the search stays
    written either way. *)
Theorem initialize_opens_found (env : CameraEnv) (cfg : Config) (f : Found)
        (p : String.string) :
  find_registered_camera env cfg = Returned f ->
  found_path f = Some p ->
  initialize env cfg =
  Returned (capture_opens env p,
            mkManager p (capture_opens env p)
                      (if capture_opens env p
                       then preferred_settings (found_config f) else [])
                      (found_config f) (found_saved f)).
Proof.
  intros Hf Hp. destruct (found_path_device env cfg f p Hf Hp) as (k & ->).
  unfold initialize. rewrite Hf, Hp. unfold choose_device. cbv zeta.
  rewrite video_device_truthy. cbn [negb andb].
  rewrite ?video_device_truthy.
  destruct (capture_opens env (video_device k)); reflexivity.
Qed.

(** The spare camera is found; the settings are those of the first entry. *)
Lemma initialize_opens_found_witness :
  match initialize Example.spare_plugged Example.two_cameras with
  | Returned (ok, m) => (ok, device_path m, applied m)
  | Raised _ => (false, ""%string, [])
  end
  = (true, "/dev/video2"%string,
     [set_frame_width 1280; set_frame_height 720; set_fps 30; set_fourcc_mjpg]).
Proof.
  destruct (find_registered_camera Example.spare_plugged Example.two_cameras)
    as [f | e] eqn:Hf; [|vm_compute in Hf; discriminate].
  assert (Hp : found_path f = Some "/dev/video2"%string)
    by (vm_compute in Hf; injection Hf as <-; reflexivity).
  rewrite (initialize_opens_found _ _ f _ Hf Hp).
  vm_compute in Hf. injection Hf as <-. reflexivity.
Defined.

(** X24: what the search remembers is what the fallback uses: after a search
    found a device for the first registered entry, a later start at which
    the search finds nothing, while that device path still exists, opens
    the same device. *)
Theorem last_seen_is_reused (env env' : CameraEnv) (cfg : Config)
        (f f' : Found) (p : String.string) (first : Registered)
        (rest : list Registered) :
  find_registered_camera env cfg = Returned f ->
  found_path f = Some p ->
  found_config f = Some (first :: rest) ->
  reg_last_seen_device first = Some p ->
  find_registered_camera env' (found_config f) = Returned f' ->
  found_path f' = None ->
  path_exists env' p = true ->
  exists m,
    initialize env' (found_config f) = Returned (capture_opens env' p, m) /\
    device_path m = p /\ saved m = None.
Proof.
  intros Hf Hp Hc Hseen Hf' Hp' Hex.
  destruct (found_path_device env cfg f p Hf Hp) as (k & ->).
  destruct (found_nothing env' (found_config f) f' Hf' Hp') as (Hc' & Hs').
  unfold initialize. rewrite Hf'. cbv zeta.
  assert (Hd : choose_device env' (found_config f') (found_path f')
               = video_device k).
  { rewrite Hc', Hc, Hp'. unfold choose_device.
    cbn [str_truthy negb andb has_registered]. rewrite Hseen.
    rewrite video_device_truthy, Hex, video_device_truthy. reflexivity. }
  rewrite Hd, Hs'.
  destruct (capture_opens env' (video_device k)); eexists;
    (split; [reflexivity|]); split; reflexivity.
Qed.

(** The front camera is found at /dev/video1; at the next start v4l2-ctl is
    missing and the device is opened again from the remembered path. *)
Lemma last_seen_is_reused_witness :
  match find_registered_camera Example.front_plugged Example.two_cameras with
  | Returned f =>
      match initialize Example.no_v4l2 (found_config f) with
      | Returned (ok, m) => (ok, device_path m)
      | Raised _ => (false, ""%string)
      end
  | Raised _ => (false, ""%string)
  end
  = (true, "/dev/video1"%string).
Proof.
  destruct (find_registered_camera Example.front_plugged Example.two_cameras)
    as [f | e] eqn:Hf; [|vm_compute in Hf; discriminate].
  destruct (find_registered_camera Example.no_v4l2 (found_config f))
    as [f' | e'] eqn:Hf';
    [|vm_compute in Hf; injection Hf as <-; vm_compute in Hf'; discriminate].
  assert (Hall : found_path f = Some "/dev/video1"%string /\
                 found_path f' = None /\
                 exists first rest,
                   found_config f = Some (first :: rest) /\
                   reg_last_seen_device first = Some "/dev/video1"%string).
  { vm_compute in Hf. injection Hf as <-. vm_compute in Hf'.
    injection Hf' as <-. split; [reflexivity|]. split; [reflexivity|].
    eexists _, _. split; reflexivity. }
  destruct Hall as (Hp & Hp' & first & rest & Hc & Hseen).
  destruct (last_seen_is_reused Example.front_plugged Example.no_v4l2 _ f f'
              _ first rest Hf Hp Hc Hseen Hf' Hp' eq_refl)
    as (m & Hinit & Hdev & _).
  rewrite Hinit, Hdev. reflexivity.
Defined.

(** ** Entities that have died *)

(** X25: every balloon left after an update in RUN before the deadline is the
    updated form of a balloon that was alive before the update, or of the
    balloon just spawned, and has not passed the top bound; every effect
    left is the updated form of an effect that was alive and is younger than
    its lifetime. A balloon that a shot has popped is therefore gone after
    the next update, and nothing dead comes back. *)
Theorem update_never_revives (M : MathLib) (now : float) (d : SpawnDraw)
        (dt : float) (g : Game) :
  state g = RUN ->
  (Py.of_int GAME_DURATION <=? now - game_start_time g)%float = false ->
  (forall b', In b' (balloons (update M now d dt g)) ->
     exists b,
       (In b (balloons g) \/
        b = Balloon_init (Py.of_int (draw_x d))
                         (Py.of_int (VIRTUAL_HEIGHT + BALLOON_SIZE))
                         (draw_color d) (draw_speed d)
                         (draw_balloon_type (draw_val d))) /\
       b' = Balloon_update M dt b /\ b_alive b = true /\
       (b_y b - b_speed b * dt <? Py.of_int (- b_radius b * 2))%float = false) /\
  (forall e', In e' (shoot_effects (update M now d dt g)) ->
     exists e,
       In e (shoot_effects g) /\ e' = ShootEffect_update dt e /\
       e_alive e = true /\
       (e_lifetime e <=? e_age e + dt)%float = false).
Proof.
  intros Hs Hd. unfold update. rewrite Hs, Hd. split.
  - intros b' Hin. cbn [balloons] in Hin. apply filter_In in Hin.
    destruct Hin as [Hin Halive]. apply in_map_iff in Hin.
    destruct Hin as (b & <- & Hb). exists b.
    assert (Horigin : In b (balloons g) \/
                      b = Balloon_init (Py.of_int (draw_x d))
                            (Py.of_int (VIRTUAL_HEIGHT + BALLOON_SIZE))
                            (draw_color d) (draw_speed d)
                            (draw_balloon_type (draw_val d))).
    { destruct (BALLOON_SPAWN_INTERVAL <=? now - last_balloon_spawn g)%float;
        cbn [balloons spawn_balloon with_balloons] in Hb; [|auto].
      apply in_app_or in Hb. destruct Hb as [Hb | [<- | []]]; auto. }
    split; [exact Horigin|]. split; [reflexivity|].
    unfold Balloon_update in Halive. cbn [b_alive] in Halive.
    destruct (b_y b - b_speed b * dt <? Py.of_int (- b_radius b * 2))%float;
      [discriminate | auto].
  - intros e' Hin. cbn [shoot_effects] in Hin. apply filter_In in Hin.
    destruct Hin as [Hin Halive]. apply in_map_iff in Hin.
    destruct Hin as (e & <- & He). exists e.
    assert (Horigin : In e (shoot_effects g)).
    { destruct (BALLOON_SPAWN_INTERVAL <=? now - last_balloon_spawn g)%float;
        exact He. }
    split; [exact Horigin|]. split; [reflexivity|].
    unfold ShootEffect_update in Halive.
    destruct (e_lifetime e <=? e_age e + dt)%float;
      [discriminate | auto].
Qed.

(** The popped balloon of the example is not in the session after the next
    update, which is 0.1 s later and leaves the shot's effect. *)
Lemma update_never_revives_witness :
  state Example.after_hit = RUN /\
  balloons (update Example.lib 10.1 Example.some_draw 0.1 Example.after_hit)
  = [] /\
  map e_age
      (shoot_effects (update Example.lib 10.1 Example.some_draw 0.1
                             Example.after_hit)) = [0.1%float].
Proof.
  pose proof (update_never_revives Example.lib 10.1 Example.some_draw 0.1
                Example.after_hit eq_refl eq_refl) as [Hb _].
  split; [reflexivity|]. split; [|vm_compute; reflexivity].
  destruct (balloons (update Example.lib 10.1 Example.some_draw 0.1
                             Example.after_hit)) as [| b' bs] eqn:E;
    [reflexivity|].
  destruct (Hb b' (or_introl eq_refl)) as (b & Horigin & _ & Halive & _).
  exfalso. destruct Horigin as [Hin | ->].
  - vm_compute in Hin. destruct Hin as [<- | []]. discriminate.
  - vm_compute in E. discriminate.
Defined.
